(** * The order workflow of craftculture-backend

    A shallow embedding of [routes/orderRouter.js]: the validation
    middleware [validateOrderInput], the order-creation handler
    [router.post("/")] (stock reservation, total verification, compensating
    restoration) and the status handler [router.patch("/:orderId/status")]
    (cancellation-time restoration), over the [Product] and [Order]
    collections.

    Modelling conventions.
    - The two collections are finite maps from document ids to documents;
      [findById] is map lookup and [save] is map insert.  A handler is a
      function from the database to a response and the database it leaves.
    - Strings are sequences of code units below 256, so that [trim], the
      [\s] and [\d] classes and [toLowerCase] are the restrictions of the
      JavaScript ones to that range.
    - Stock and item quantities are integers, and the loops add and
      subtract them exactly.  That is the program on the runs in which the
      quantities, and the sums and differences the loops form, stay within
      2^53 in absolute value, where binary64 arithmetic on integers is
      exact; a property that rests on an exact sum or difference carries
      this bound as the hypothesis [exactStock].
    - Prices, offers and totals are numbers of an arithmetic given by the
      class [JSNumber].  Its binary64 instance is the arithmetic of the
      program; the instance of exact rationals serves to relate the
      handler's total to the formula of the specification.
    - A call reads the clock where it builds a date; one reading [now]
      stands for the readings of a call, and the delivery estimate is
      [now] plus five days of 86400000 ms, where the program advances the
      local calendar date by five.
    - Storage failures (a rejected [save], an id that does not cast) are
      outside the model: lookups and saves always complete. *)

From Stdlib Require Import ZArith QArith Qabs String Ascii List Lia.
From Stdlib Require Import Floats.
From stdpp Require Import base option gmap list strings pretty sorting.

Set Default Proof Using "Type".
Local Open Scope string_scope.
Local Open Scope Z_scope.

(** ** Strings *)

(** White space of [String.prototype.trim] and of the class [\s]. *)
Definition isSpace (c : ascii) : bool :=
  let n := N_of_ascii c in
  (((9 <=? n) && (n <=? 13)) || (n =? 32) || (n =? 160))%N.

(** The class [\d]. *)
Definition isDigit (c : ascii) : bool :=
  let n := N_of_ascii c in ((48 <=? n) && (n <=? 57))%N.

Fixpoint trimStart (s : string) : string :=
  match s with
  | String c s' => if isSpace c then trimStart s' else s
  | EmptyString => EmptyString
  end.

Definition trim (s : string) : string :=
  String.rev (trimStart (String.rev (trimStart s))).

Definition lowerChar (c : ascii) : ascii :=
  let n := N_of_ascii c in
  if (((65 <=? n) && (n <=? 90))
      || ((192 <=? n) && (n <=? 222) && negb (n =? 215)))%N
  then ascii_of_N (n + 32) else c.

Fixpoint toLowerCase (s : string) : string :=
  match s with
  | String c s' => String (lowerChar c) (toLowerCase s')
  | EmptyString => EmptyString
  end.

(** ** Regular expressions

    The two patterns of the middleware are anchored at both ends, so
    [RegExp.prototype.test] decides membership of the whole string in the
    language of the pattern; it is computed with derivatives. *)

Inductive regex : Type :=
  | Void : regex
  | Eps : regex
  | Class : (ascii -> bool) -> regex
  | Seq : regex -> regex -> regex
  | Alt : regex -> regex -> regex
  | Star : regex -> regex.

Fixpoint nullable (r : regex) : bool :=
  match r with
  | Void => false
  | Eps => true
  | Class _ => false
  | Seq r1 r2 => nullable r1 && nullable r2
  | Alt r1 r2 => nullable r1 || nullable r2
  | Star _ => true
  end.

Fixpoint deriv (c : ascii) (r : regex) : regex :=
  match r with
  | Void => Void
  | Eps => Void
  | Class f => if f c then Eps else Void
  | Seq r1 r2 =>
      if nullable r1 then Alt (Seq (deriv c r1) r2) (deriv c r2)
      else Seq (deriv c r1) r2
  | Alt r1 r2 => Alt (deriv c r1) (deriv c r2)
  | Star r1 => Seq (deriv c r1) (Star r1)
  end.

Fixpoint test (r : regex) (s : string) : bool :=
  match s with
  | EmptyString => nullable r
  | String c s' => test (deriv c r) s'
  end.

Definition Chr (a : ascii) : regex := Class (Ascii.eqb a).
Definition Plus (r : regex) : regex := Seq r (Star r).
Definition Opt (r : regex) : regex := Alt Eps r.

Fixpoint AtLeast (n : nat) (r : regex) : regex :=
  match n with
  | O => Star r
  | S n' => Seq r (AtLeast n' r)
  end.

(** [[^\s@]] *)
Definition notSpaceAt (c : ascii) : bool :=
  negb (isSpace c || Ascii.eqb c "@").

(** [/^[^\s@]+@[^\s@]+\.[^\s@]+$/] *)
Definition emailRegex : regex :=
  Seq (Plus (Class notSpaceAt))
    (Seq (Chr "@")
       (Seq (Plus (Class notSpaceAt))
          (Seq (Chr ".") (Plus (Class notSpaceAt))))).

(** [[\d\s-()]]: a digit, white space, or one of [-], [(], [)]. *)
Definition phoneChar (c : ascii) : bool :=
  isDigit c || isSpace c || Ascii.eqb c "-" || Ascii.eqb c "("
  || Ascii.eqb c ")".

(** [/^\+?[\d\s-()]{8,}$/] *)
Definition phoneRegex : regex :=
  Seq (Opt (Chr "+")) (AtLeast 8 (Class phoneChar)).

(** ** Numbers

    The operations the handlers apply to prices, offers and totals. *)

Class JSNumber (num : Type) : Type := {
  num_of_Z : Z -> num;          (* an integer-valued number *)
  num_add : num -> num -> num;
  num_sub : num -> num -> num;
  num_mul : num -> num -> num;
  num_div : num -> num -> num;
  num_abs : num -> num;         (* Math.abs *)
  num_ltb : num -> num -> bool; (* < *)
  num_leb : num -> num -> bool; (* <= *)
  num_eqb : num -> num -> bool; (* === *)
  num_truthy : num -> bool;     (* neither 0 nor NaN *)
  num_hundredth : num           (* the literal 0.01 *)
}.

(** Exact arithmetic. *)
#[export] Instance Q_JSNumber : JSNumber Q := {|
  num_of_Z := inject_Z;
  num_add := Qplus;
  num_sub := Qminus;
  num_mul := Qmult;
  num_div := Qdiv;
  num_abs := Qabs;
  num_ltb := fun x y => negb (Qle_bool y x);
  num_leb := Qle_bool;
  num_eqb := Qeq_bool;
  num_truthy := fun x => negb (Qeq_bool x 0);
  num_hundredth := (1 # 100)%Q
|}.

(** The binary64 number nearest to an integer (ties to even), as a number
    literal of that value denotes it. *)
Definition float_of_Z (z : Z) : float :=
  SF2Prim (binary_normalize prec emax z 0 false).

(** IEEE 754 binary64, the arithmetic of JavaScript numbers. *)
#[export] Instance float_JSNumber : JSNumber float := {|
  num_of_Z := float_of_Z;
  num_add := PrimFloat.add;
  num_sub := PrimFloat.sub;
  num_mul := PrimFloat.mul;
  num_div := PrimFloat.div;
  num_abs := PrimFloat.abs;
  num_ltb := PrimFloat.ltb;
  num_leb := PrimFloat.leb;
  num_eqb := PrimFloat.eqb;
  num_truthy := fun x => negb (PrimFloat.eqb x 0%float || PrimFloat.is_nan x);
  num_hundredth := 0x1.47ae147ae147bp-7%float (* 0.01 *)
|}.

(** ** Documents *)

Abbreviation ObjectId := N (only parsing).

(** Milliseconds since the epoch. *)
Abbreviation Date := Z (only parsing).

Inductive ProductStatus : Set := Available | NotAvailable.

Inductive Category : Set :=
  Frames | WallHanging | Bag | PenStand | Jewellery | Diyas | BottleArt.

(** [models/Product.js] *)
Module Product.
Record t (num : Type) : Type := mk {
  name : string;
  quantity : Z;
  price : num;
  image : option string;
  status : ProductStatus;
  category : Category;
  offer : num
}.
Arguments mk {num}.
Arguments name {num}.
Arguments quantity {num}.
Arguments price {num}.
Arguments image {num}.
Arguments status {num}.
Arguments category {num}.
Arguments offer {num}.

(** The two assignments the handlers make before [product.save()]. *)
Definition restock {num} (p : t num) (q : Z) (s : ProductStatus) : t num :=
  mk (name p) q (price p) (image p) s (category p) (offer p).
End Product.

(** A cart item, as submitted in [req.body.items] and as kept in the
    order. *)
Module Item.
Record t (num : Type) : Type := mk {
  _id : ObjectId;
  name : string;
  quantity : Z;
  price : num;
  offer : num
}.
Arguments mk {num}.
Arguments _id {num}.
Arguments name {num}.
Arguments quantity {num}.
Arguments price {num}.
Arguments offer {num}.
End Item.

Module Address.
Record t : Type := mk {
  street : option string;
  city : option string;
  state : option string;
  postalCode : option string
}.
End Address.

(** [req.body] of [POST /]; an absent field is [None]. *)
Module OrderBody.
Record t (num : Type) : Type := mk {
  username : option string;
  fullName : option string;
  email : option string;
  phone : option string;
  items : option (list (Item.t num));
  totalAmount : option num;
  address : option Address.t;
  paymentMethod : option string
}.
Arguments mk {num}.
Arguments username {num}.
Arguments fullName {num}.
Arguments email {num}.
Arguments phone {num}.
Arguments items {num}.
Arguments totalAmount {num}.
Arguments address {num}.
Arguments paymentMethod {num}.
End OrderBody.

Inductive OrderStatus : Set :=
  Pending | Processing | Shipped | Delivered | Cancelled.

(** The order document built by [new Order({...})]. *)
Module Order.
Record t (num : Type) : Type := mk {
  username : string;
  fullName : string;
  email : string;
  phone : string;
  items : list (Item.t num);
  totalAmount : option num;
  address : option Address.t;
  paymentMethod : option string;
  deliveryDate : Date;
  status : OrderStatus;
  orderDate : Date;
  trackingNumber : option string;
  notes : option string
}.
Arguments mk {num}.
Arguments username {num}.
Arguments fullName {num}.
Arguments email {num}.
Arguments phone {num}.
Arguments items {num}.
Arguments totalAmount {num}.
Arguments address {num}.
Arguments paymentMethod {num}.
Arguments deliveryDate {num}.
Arguments status {num}.
Arguments orderDate {num}.
Arguments trackingNumber {num}.
Arguments notes {num}.
End Order.

(** [req.body] of [PATCH /:orderId/status]. *)
Module StatusBody.
Record t : Type := mk {
  status : option string;
  trackingNumber : option string;
  notes : option string
}.
End StatusBody.

(** The two collections. *)
Record Db (num : Type) : Type := mkDb {
  products : gmap N (Product.t num);
  orders : gmap N (Order.t num)
}.
Arguments mkDb {num}.
Arguments products {num}.
Arguments orders {num}.

(** ** Responses and errors *)

Inductive Json (num : Type) : Type :=
  | Message (message : string)
  | OrderCreated (message : string) (orderId : ObjectId)
      (estimatedDelivery : Date)
  | OrderUpdated (message : string) (order : Order.t num).
Arguments Message {num}.
Arguments OrderCreated {num}.
Arguments OrderUpdated {num}.

(** [res.status(code).json(body)] *)
Record Response (num : Type) : Type := mkResponse {
  code : Z;
  json : Json num
}.
Arguments mkResponse {num}.
Arguments code {num}.
Arguments json {num}.

(** What the [try] block of order creation throws. *)
Inductive OrderError : Type :=
  | ProductNotFound (name : string)
  | ProductUnavailable (name : string)
  | InsufficientStock (name : string) (available : Z)
  | PriceOfferMismatch (name : string)
  | TotalMismatch
  | TypeError (what : string).

(** [error.message] *)
Definition errorMessage (e : OrderError) : string :=
  match e with
  | ProductNotFound name => "Product not found: " +:+ name
  | ProductUnavailable name =>
      "Product " +:+ name +:+ " is currently not available"
  | InsufficientStock name available =>
      "Insufficient stock for " +:+ name +:+ ". Available: "
      +:+ pretty available
  | PriceOfferMismatch name => "Price or offer mismatch for " +:+ name
  | TotalMismatch => "Total amount calculation mismatch"
  | TypeError what => what
  end.

#[export] Instance ProductStatus_eq_dec : EqDecision ProductStatus.
Proof. solve_decision. Defined.

#[export] Instance OrderStatus_eq_dec : EqDecision OrderStatus.
Proof. solve_decision. Defined.

(** ** The handlers *)

Section Handlers.
Context {num : Type} `{!JSNumber num}.

(** *** The validation middleware *)

(** [!field?.trim()] *)
Definition blank (field : option string) : bool :=
  match field with
  | Some s => String.eqb (trim s) ""
  | None => true
  end.

(** [!field] *)
Definition falsy (field : option string) : bool :=
  match field with
  | Some s => String.eqb s ""
  | None => true
  end.

(** The string a pattern is tested against. *)
Definition subject (field : option string) : string :=
  default "undefined" field.

Definition reject (message : string) : option (Response num) :=
  Some (mkResponse 400 (Message message)).

(** [validateOrderInput]: [Some res] when the middleware answers itself,
    [None] when it calls [next()]. *)
Definition validateOrderInput (body : OrderBody.t num)
  : option (Response num) :=
  if blank (OrderBody.username body) || blank (OrderBody.fullName body)
     || blank (OrderBody.email body) || blank (OrderBody.phone body)
  then reject "Customer information is incomplete"
  else if match OrderBody.items body with
          | Some (_ :: _) => false
          | _ => true
          end
  then reject "Order must contain at least one item"
  else if match OrderBody.totalAmount body with
          | Some totalAmount =>
              negb (num_truthy totalAmount)
              || num_leb totalAmount (num_of_Z 0)
          | None => true
          end
  then reject "Invalid total amount"
  else if match OrderBody.address body with
          | Some address =>
              falsy (Address.street address) || falsy (Address.city address)
              || falsy (Address.state address)
              || falsy (Address.postalCode address)
          | None => true
          end
  then reject "Shipping address is incomplete"
  else if negb match OrderBody.paymentMethod body with
               | Some paymentMethod =>
                   String.eqb paymentMethod "Online"
                   || String.eqb paymentMethod "COD"
               | None => false
               end
  then reject "Invalid payment method"
  else if negb (test emailRegex (subject (OrderBody.email body)))
  then reject "Invalid email format"
  else if negb (test phoneRegex (subject (OrderBody.phone body)))
  then reject "Invalid phone number format"
  else None.

(** *** The [try] block: database state and exceptions

    A computation reads and writes the database and may throw; what was
    saved before a throw stays saved. *)

Definition Try (A : Type) : Type := Db num -> (OrderError + A) * Db num.

Definition ret {A : Type} (x : A) : Try A := fun db => (inr x, db).

Definition bind {A B : Type} (m : Try A) (k : A -> Try B) : Try B :=
  fun db =>
    match m db with
    | (inl error, db') => (inl error, db')
    | (inr x, db') => k x db'
    end.

Definition throw {A : Type} (error : OrderError) : Try A :=
  fun db => (inl error, db).

Notation "'await' x <- m ; k" := (bind m (fun x => k))
  (at level 10, x name, m at level 100, k at level 200,
   format "'[v' 'await'  x  <-  m ; '/' k ']'").
Notation "'perform' m ; k" := (bind m (fun _ => k))
  (at level 10, m at level 100, k at level 200,
   format "'[v' 'perform'  m ; '/' k ']'").

(** [Product.findById(id)] *)
Definition findProduct (id : ObjectId) : Try (option (Product.t num)) :=
  fun db => (inr (products db !! id), db).

(** [product.save()] *)
Definition saveProduct (id : ObjectId) (product : Product.t num) : Try unit :=
  fun db => (inr tt, mkDb (<[id := product]> (products db)) (orders db)).

(** [new Order(...)] draws an id no stored order has. *)
Definition newObjectId : Try ObjectId :=
  fun db => (inr (fresh (dom (orders db))), db).

(** [order.save()] *)
Definition saveOrder (id : ObjectId) (order : Order.t num) : Try unit :=
  fun db => (inr tt, mkDb (products db) (<[id := order]> (orders db))).

(** [field.trim()], a [TypeError] on an absent field. *)
Definition trimmed (field : option string) : Try string :=
  match field with
  | Some s => ret (trim s)
  | None =>
      throw (TypeError "Cannot read properties of undefined (reading 'trim')")
  end.

Fixpoint forEach {A : Type} (body : A -> Try unit) (l : list A) : Try unit :=
  match l with
  | [] => ret tt
  | x :: l' => perform body x; forEach body l'
  end.

(** The body of [for (const item of items)]: the checks on one cart item
    and its stock decrement. *)
Definition reserve (item : Item.t num) : Try unit :=
  await product <- findProduct (Item._id item);
  match product with
  | None => throw (ProductNotFound (Item.name item))
  | Some product =>
      if negb (bool_decide (Product.status product = Available))
      then throw (ProductUnavailable (Item.name item))
      else if Product.quantity product <? Item.quantity item
      then throw (InsufficientStock (Item.name item)
                    (Product.quantity product))
      else if negb (num_eqb (Product.price product) (Item.price item))
              || negb (num_eqb (Product.offer product) (Item.offer item))
      then throw (PriceOfferMismatch (Item.name item))
      else
        let quantity := Product.quantity product - Item.quantity item in
        let status :=
          if quantity =? 0 then NotAvailable else Product.status product in
        saveProduct (Item._id item) (Product.restock product quantity status)
  end.

(** [items.reduce((sum, item) => ..., 0)] *)
Definition calculatedTotal (items : list (Item.t num)) : num :=
  fold_left
    (fun sum item =>
       let price := num_mul (Item.price item) (num_of_Z (Item.quantity item)) in
       let discount :=
         num_mul price (num_div (Item.offer item) (num_of_Z 100)) in
       num_add sum (num_sub price discount))
    items (num_of_Z 0).

(** [Math.abs(calculatedTotal - totalAmount) > 0.01]; with [totalAmount]
    absent the difference is [NaN] and the comparison false. *)
Definition totalMismatch (calculated : num) (totalAmount : option num) : bool :=
  match totalAmount with
  | Some totalAmount =>
      num_ltb num_hundredth (num_abs (num_sub calculated totalAmount))
  | None => false
  end.

(** [deliveryDate.setDate(deliveryDate.getDate() + 5)], five days of
    86400000 ms (a calendar day, no clock change in between). *)
Definition estimate (now : Date) : Date := now + 5 * 86400000.

(** The [try] block of [router.post("/")]. *)
Definition placeOrder (now : Date) (body : OrderBody.t num)
  : Try (Response num) :=
  await items <- match OrderBody.items body with
                 | Some items => ret items
                 | None => throw (TypeError "items is not iterable")
                 end;
  perform forEach reserve items;
  if totalMismatch (calculatedTotal items) (OrderBody.totalAmount body)
  then throw TotalMismatch
  else
    let deliveryDate := estimate now in
    await username <- trimmed (OrderBody.username body);
    await fullName <- trimmed (OrderBody.fullName body);
    await email <- trimmed (OrderBody.email body);
    await phone <- trimmed (OrderBody.phone body);
    await _id <- newObjectId;
    let order :=
      Order.mk username fullName (toLowerCase email) phone items
        (OrderBody.totalAmount body) (OrderBody.address body)
        (OrderBody.paymentMethod body) deliveryDate Pending now None None in
    perform saveOrder _id order;
    ret (mkResponse 201
           (OrderCreated "Order created successfully" _id deliveryDate)).

(** One round of the [catch] block's loop: add the item's quantity back. *)
Definition restore (db : Db num) (item : Item.t num) : Db num :=
  match products db !! Item._id item with
  | Some product =>
      let quantity := Product.quantity product + Item.quantity item in
      let status :=
        if 0 <? quantity then Available else Product.status product in
      mkDb (<[Item._id item := Product.restock product quantity status]>
              (products db))
        (orders db)
  | None => db
  end.

(** [router.post("/", validateOrderInput, ...)] *)
Definition createOrder (now : Date) (body : OrderBody.t num) (db : Db num)
  : Response num * Db num :=
  match validateOrderInput body with
  | Some res => (res, db)
  | None =>
      match placeOrder now body db with
      | (inr res, db') => (res, db')
      | (inl error, db') =>
          let db'' :=
            match OrderBody.items body with
            | Some items => fold_left restore items db'
            | None => db'
            end in
          let message := errorMessage error in
          (mkResponse 400
             (Message (if String.eqb message "" then "Error creating order"
                       else message)),
           db'')
      end
  end.

(** *** The status handler *)

(** Membership in the list of the five status names. *)
Definition parseStatus (status : string) : option OrderStatus :=
  if String.eqb status "Pending" then Some Pending
  else if String.eqb status "Processing" then Some Processing
  else if String.eqb status "Shipped" then Some Shipped
  else if String.eqb status "Delivered" then Some Delivered
  else if String.eqb status "Cancelled" then Some Cancelled
  else None.

(** One round of the cancellation loop. *)
Definition cancelRestore (db : Db num) (item : Item.t num) : Db num :=
  match products db !! Item._id item with
  | Some product =>
      let quantity := Product.quantity product + Item.quantity item in
      mkDb (<[Item._id item := Product.restock product quantity Available]>
              (products db))
        (orders db)
  | None => db
  end.

(** [if (field) order.field = field.trim()] *)
Definition overwrite (field : option string) (old : option string)
  : option string :=
  match field with
  | Some s => if String.eqb s "" then old else Some (trim s)
  | None => old
  end.

(** [router.patch("/:orderId/status", ...)] *)
Definition updateOrderStatus (now : Date) (orderId : ObjectId)
    (body : StatusBody.t) (db : Db num) : Response num * Db num :=
  match StatusBody.status body ≫= parseStatus with
  | None => (mkResponse 400 (Message "Invalid order status"), db)
  | Some status =>
      match orders db !! orderId with
      | None => (mkResponse 404 (Message "Order not found"), db)
      | Some order =>
          if bool_decide (Order.status order = Cancelled)
          then (mkResponse 400
                  (Message "Cannot update status of cancelled order"), db)
          else
            let db' :=
              if bool_decide (status = Cancelled)
                 && negb (bool_decide (Order.status order = Cancelled))
              then fold_left cancelRestore (Order.items order) db
              else db in
            let order' :=
              Order.mk (Order.username order) (Order.fullName order)
                (Order.email order) (Order.phone order) (Order.items order)
                (Order.totalAmount order) (Order.address order)
                (Order.paymentMethod order)
                (if bool_decide (status = Delivered) then now
                 else Order.deliveryDate order)
                status (Order.orderDate order)
                (overwrite (StatusBody.trackingNumber body)
                   (Order.trackingNumber order))
                (overwrite (StatusBody.notes body) (Order.notes order)) in
            (mkResponse 200
               (OrderUpdated "Order status updated successfully" order'),
             mkDb (products db') (<[orderId := order']> (orders db')))
      end
  end.

End Handlers.
(** ** Vocabulary of the properties *)

(** No code unit of the string is white space. *)
Fixpoint spaceless (s : string) : Prop :=
  match s with
  | EmptyString => True
  | String c s' => isSpace c = false /\ spaceless s'
  end.

(** Every character class of the pattern lies within [P]. *)
Fixpoint within (P : ascii -> Prop) (r : regex) : Prop :=
  match r with
  | Void | Eps => True
  | Class f => forall c, f c = true -> P c
  | Seq r1 r2 | Alt r1 r2 => within P r1 /\ within P r2
  | Star r1 => within P r1
  end.

(** A pattern that visibly matches nothing. *)
Fixpoint dead (r : regex) : bool :=
  match r with
  | Void => true
  | Eps | Class _ | Star _ => false
  | Seq r1 r2 => dead r1 || dead r2
  | Alt r1 r2 => dead r1 && dead r2
  end.

Section Vocabulary.
Context {num : Type} `{!JSNumber num}.

(** The quantity of product [id] that a cart asks for, over all its lines. *)
Fixpoint ordered (id : ObjectId) (items : list (Item.t num)) : Z :=
  match items with
  | [] => 0
  | item :: rest =>
      (if decide (Item._id item = id) then Item.quantity item else 0)
      + ordered id rest
  end.

(** Status and quantity agree. *)
Definition coherent (product : Product.t num) : Prop :=
  Product.status product = NotAvailable <-> Product.quantity product = 0.

(** The product as [reserve] saves it. *)
Definition decremented (product : Product.t num) (item : Item.t num)
  : Product.t num :=
  let quantity := Product.quantity product - Item.quantity item in
  Product.restock product quantity
    (if quantity =? 0 then NotAvailable else Product.status product).

(** No stored quantity is negative. *)
Definition stocked (db : Db num) : Prop :=
  forall id product,
    products db !! id = Some product -> 0 <= Product.quantity product.

(** A handler answered with an error status. *)
Definition failed (res : Response num) : Prop := 400 <= code res.

(** The order document a successful creation saves. *)
Definition orderOf (now : Date) (body : OrderBody.t num)
    (items : list (Item.t num)) : Order.t num :=
  Order.mk (trim (default "" (OrderBody.username body)))
    (trim (default "" (OrderBody.fullName body)))
    (toLowerCase (trim (default "" (OrderBody.email body))))
    (trim (default "" (OrderBody.phone body)))
    items (OrderBody.totalAmount body) (OrderBody.address body)
    (OrderBody.paymentMethod body) (estimate now) Pending now None None.

(** The answer of the [catch] block. *)
Definition refused (error : OrderError) : Response num :=
  mkResponse 400 (Message (errorMessage error)).

(** *** The reservation rules, one constructor per rule *)



(** *** The preconditions of order creation *)

Definition missing (field : option string) : Prop :=
  field = None \/ field = Some "".

Definition emptyAfterTrim (field : option string) : Prop :=
  field = None \/ exists s, field = Some s /\ trim s = "".

Inductive violation (body : OrderBody.t num) : Prop :=
  | violation_customer :
      emptyAfterTrim (OrderBody.username body)
      \/ emptyAfterTrim (OrderBody.fullName body)
      \/ emptyAfterTrim (OrderBody.email body)
      \/ emptyAfterTrim (OrderBody.phone body) ->
      violation body
  | violation_email s :
      OrderBody.email body = Some s -> test emailRegex s = false ->
      violation body
  | violation_phone s :
      OrderBody.phone body = Some s -> test phoneRegex s = false ->
      violation body
  | violation_items :
      OrderBody.items body = None \/ OrderBody.items body = Some [] ->
      violation body
  | violation_total :
      OrderBody.totalAmount body = None
      \/ (exists totalAmount,
            OrderBody.totalAmount body = Some totalAmount
            /\ (num_truthy totalAmount = false
                \/ num_leb totalAmount (num_of_Z 0) = true)) ->
      violation body
  | violation_address :
      OrderBody.address body = None
      \/ (exists address,
            OrderBody.address body = Some address
            /\ (missing (Address.street address)
                \/ missing (Address.city address)
                \/ missing (Address.state address)
                \/ missing (Address.postalCode address))) ->
      violation body
  | violation_payment :
      OrderBody.paymentMethod body <> Some "Online" ->
      OrderBody.paymentMethod body <> Some "COD" ->
      violation body.

(** The cart with its quantities replaced. *)
Definition requantify (quantity : Item.t num -> Z) (items : list (Item.t num))
  : list (Item.t num) :=
  map (fun item =>
         Item.mk (Item._id item) (Item.name item) (quantity item)
           (Item.price item) (Item.offer item)) items.

Definition withItems (body : OrderBody.t num) (items : list (Item.t num))
  : OrderBody.t num :=
  OrderBody.mk (OrderBody.username body) (OrderBody.fullName body)
    (OrderBody.email body) (OrderBody.phone body) (Some items)
    (OrderBody.totalAmount body) (OrderBody.address body)
    (OrderBody.paymentMethod body).

End Vocabulary.

(** The expected total in the words of the specification, in exact
    arithmetic. *)
Definition expectedTotal (items : list (Item.t Q)) : Q :=
  fold_right
    (fun item total =>
       Item.price item * inject_Z (Item.quantity item)
       * (1 - Item.offer item / 100) + total)%Q
    0%Q items.

(** ** Listing the orders of a user *)

Section Listing.
Context {num : Type} `{!JSNumber num}.

(** The order of [.sort("-orderDate")]: later dates first. *)
Definition newerFirst (a b : ObjectId * Order.t num) : Prop :=
  Order.orderDate (snd b) <= Order.orderDate (snd a).

#[export] Instance newerFirst_dec : RelDecision newerFirst.
Proof. intros a b. unfold newerFirst. apply _. Defined.

(** [router.get("/:username")]: the documents [Order.find({ username })]
    selects, sorted, answered with status 200.  The database leaves the
    order of documents of one date open; here it is that of the merge
    sort. *)
Definition getUserOrders (username : string) (db : Db num)
  : Z * list (ObjectId * Order.t num) :=
  (200,
   merge_sort newerFirst
     (filter (fun doc => Order.username (snd doc) = username)
        (map_to_list (orders db)))).

End Listing.

(** ** The quantity arithmetic in the numbers of the program

    The handlers above keep quantities as integers.  The program keeps
    them as numbers; these are its three assignments to
    [product.quantity] on numbers of a [JSNumber] arithmetic, which at the
    binary64 instance are the program's own. *)

Section QuantityArithmetic.
Context {num : Type} `{!JSNumber num}.

(** [if (product.quantity < item.quantity) throw ...;
    product.quantity -= item.quantity]: the stock left, unless the check
    throws. *)
Definition decrementQuantity (stock requested : num) : option num :=
  if num_ltb stock requested then None else Some (num_sub stock requested).

(** [product.quantity += item.quantity], of the [catch] block and of the
    cancellation loop. *)
Definition restoreQuantity (stock requested : num) : num :=
  num_add stock requested.

End QuantityArithmetic.

(** ** Further vocabulary *)

(** The two products differ at most in quantity and status. *)
Definition sameListing {num : Type} (p p' : Product.t num) : Prop :=
  Product.name p' = Product.name p
  /\ Product.price p' = Product.price p
  /\ Product.image p' = Product.image p
  /\ Product.category p' = Product.category p
  /\ Product.offer p' = Product.offer p.

(** The quantities of a cart, added up in absolute value. *)
Fixpoint volume {num : Type} (items : list (Item.t num)) : Z :=
  match items with
  | [] => 0
  | item :: rest => Z.abs (Item.quantity item) + volume rest
  end.

(** Every stock, enlarged or reduced by any of the cart's quantities, stays
    within 2^53: the integers binary64 holds exactly, so that the sums and
    differences the loops form over this cart are exact in the program. *)
Definition exactStock {num : Type} (db : Db num) (items : list (Item.t num))
  : Prop :=
  forall id product,
    products db !! id = Some product ->
    Z.abs (Product.quantity product) + volume items <= 2 ^ 53.

(** The ids of the products a request body names. *)
Definition cartIds {num : Type} (body : OrderBody.t num) : list ObjectId :=
  map Item._id (default [] (OrderBody.items body)).

(** Every code unit of the string is in the class. *)
Fixpoint allIn (f : ascii -> bool) (s : string) : Prop :=
  match s with
  | EmptyString => True
  | String c s' => f c = true /\ allIn f s'
  end.

(** The strings a pattern denotes. *)
Inductive lang : regex -> string -> Prop :=
  | lang_eps : lang Eps ""
  | lang_class f c : f c = true -> lang (Class f) (String c "")
  | lang_seq r1 r2 s1 s2 :
      lang r1 s1 -> lang r2 s2 -> lang (Seq r1 r2) (s1 +:+ s2)
  | lang_alt_l r1 r2 s : lang r1 s -> lang (Alt r1 r2) s
  | lang_alt_r r1 r2 s : lang r2 s -> lang (Alt r1 r2) s
  | lang_star_nil r : lang (Star r) ""
  | lang_star_cons r s1 s2 :
      lang r s1 -> lang (Star r) s2 -> lang (Star r) (s1 +:+ s2).

(** ** A small catalogue and its carts *)

Module Shop.
Section Data.
Context {num : Type} `{!JSNumber num}.

Definition frame (quantity : Z) (status : ProductStatus) : Product.t num :=
  Product.mk "Frame" quantity (num_of_Z 100) None status Frames (num_of_Z 10).

Definition diya (quantity : Z) (status : ProductStatus) : Product.t num :=
  Product.mk "Diya" quantity (num_of_Z 40) None status Diyas (num_of_Z 0).

(** Cart lines for the two products, at their listed price and offer. *)
Definition frames (quantity : Z) : Item.t num :=
  Item.mk 1%N "Frame" quantity (num_of_Z 100) (num_of_Z 10).

Definition diyas (quantity : Z) : Item.t num :=
  Item.mk 2%N "Diya" quantity (num_of_Z 40) (num_of_Z 0).

Definition home : Address.t :=
  Address.mk (Some "1 Main St") (Some "Pune") (Some "MH") (Some "411001").

Definition request (items : list (Item.t num)) (totalAmount : num)
  : OrderBody.t num :=
  OrderBody.mk (Some " bob ") (Some "Bob B") (Some "Bob@Example.com")
    (Some "+91 98765-43210") (Some items) (Some totalAmount) (Some home)
    (Some "COD").

(** Five frames and one diya on the shelf, no order yet. *)
Definition catalogue : Db num :=
  mkDb (<[1%N := frame 5 Available]> (<[2%N := diya 1 Available]> ∅)) ∅.

Definition cancel : StatusBody.t := StatusBody.mk (Some "Cancelled") None None.

(** A ribbon at a price of 1 with an offer of 1 percent, its cart line,
    and a stall that sells nothing else. *)
Definition ribbon (quantity : Z) (status : ProductStatus) : Product.t num :=
  Product.mk "Ribbon" quantity (num_of_Z 1) None status Bag (num_of_Z 1).

Definition ribbons (quantity : Z) : Item.t num :=
  Item.mk 3%N "Ribbon" quantity (num_of_Z 1) (num_of_Z 1).

Definition stall : Db num := mkDb {[ 3%N := ribbon 10 Available ]} ∅.

End Data.
End Shop.

(** ** Stock reservation *)

Section Reservation.
Context {num : Type} `{!JSNumber num}.
Implicit Types (db : Db num) (item : Item.t num) (items : list (Item.t num)).
Implicit Types (product : Product.t num) (id : ObjectId).

Lemma Db_eta db : mkDb (products db) (orders db) = db.
Proof. by destruct db. Qed.

(** The bound on stock and cart can be checked product by product. *)
Lemma exactStock_check db items :
  forallb
    (fun doc => Z.abs (Product.quantity (snd doc)) + volume items <=? 2 ^ 53)
    (map_to_list (products db)) = true ->
  exactStock db items.
Proof.
  intros Hall id product Hl. rewrite forallb_forall in Hall.
  apply Z.leb_le. apply (Hall (id, product)).
  apply list_elem_of_In. by apply elem_of_map_to_list.
Qed.

(** [reserve] in one piece: its five outcomes. *)
Lemma reserve_unfold item db :
  reserve item db =
  match products db !! Item._id item with
  | None => (inl (ProductNotFound (Item.name item)), db)
  | Some product =>
      if negb (bool_decide (Product.status product = Available))
      then (inl (ProductUnavailable (Item.name item)), db)
      else if Product.quantity product <? Item.quantity item
      then (inl (InsufficientStock (Item.name item)
                   (Product.quantity product)), db)
      else if negb (num_eqb (Product.price product) (Item.price item))
              || negb (num_eqb (Product.offer product) (Item.offer item))
      then (inl (PriceOfferMismatch (Item.name item)), db)
      else (inr tt,
            mkDb (<[Item._id item := decremented product item]> (products db))
              (orders db))
  end.
Proof.
  unfold reserve, bind, findProduct, throw, saveProduct, decremented; simpl.
  destruct (products db !! Item._id item) as [product|]; [|done].
  repeat case_match; done.
Qed.

(** A successful [reserve]: the guards held and one product was saved. *)
Lemma reserve_ok item db db1 :
  reserve item db = (inr tt, db1) ->
  exists product,
    products db !! Item._id item = Some product
    /\ Product.status product = Available
    /\ Item.quantity item <= Product.quantity product
    /\ num_eqb (Product.price product) (Item.price item) = true
    /\ num_eqb (Product.offer product) (Item.offer item) = true
    /\ db1 = mkDb (<[Item._id item := decremented product item]> (products db))
               (orders db).
Proof.
  rewrite reserve_unfold.
  destruct (products db !! Item._id item) as [product|]; [|done].
  destruct (bool_decide (Product.status product = Available)) eqn:Hs;
    simpl; [|done].
  destruct (Product.quantity product <? Item.quantity item) eqn:Hq; [done|].
  destruct (num_eqb (Product.price product) (Item.price item)) eqn:Hp;
    simpl; [|done].
  destruct (num_eqb (Product.offer product) (Item.offer item)) eqn:Ho;
    simpl; [|done].
  intros [= <-]. exists product.
  apply bool_decide_eq_true in Hs. apply Z.ltb_ge in Hq. done.
Qed.

(** A failed [reserve] saves nothing. *)
Lemma reserve_error item db error db1 :
  reserve item db = (inl error, db1) -> db1 = db.
Proof.
  rewrite reserve_unfold. repeat case_match; by intros [= <-].
Qed.

Lemma forEach_cons {A} (body : A -> Try unit) x l db :
  forEach body (x :: l) db =
  match body x db with
  | (inl error, db') => (inl error, db')
  | (inr _, db') => forEach body l db'
  end.
Proof. done. Qed.

(** The decrement leaves a product whose status agrees with its stock. *)
Lemma decremented_coherent product item :
  Product.status product = Available -> coherent (decremented product item).
Proof.
  intros Hs. unfold coherent, decremented; simpl.
  destruct (Z.eqb_spec (Product.quantity product - Item.quantity item) 0);
    [done|]. rewrite Hs. split; [done | lia].
Qed.

(** The reservation loop touches no order and no product outside the cart. *)
Lemma reserveAll_orders items db r db1 :
  forEach reserve items db = (r, db1) -> orders db1 = orders db.
Proof.
  revert db. induction items as [|item rest IH]; intros db.
  - by intros [= _ <-].
  - rewrite forEach_cons. destruct (reserve item db) as [[e|[]] db2] eqn:Hr.
    + apply reserve_error in Hr as ->. by intros [= _ <-].
    + intros Hrest. apply IH in Hrest as ->.
      apply reserve_ok in Hr as (p & _ & _ & _ & _ & _ & ->). done.
Qed.

Lemma reserveAll_untouched items db r db1 id :
  forEach reserve items db = (r, db1) ->
  id ∉ map Item._id items ->
  products db1 !! id = products db !! id.
Proof.
  revert db. induction items as [|item rest IH]; intros db.
  - by intros [= _ <-].
  - rewrite forEach_cons. simpl. intros Hrun Hid.
    apply not_elem_of_cons in Hid as [Hne Hid].
    destruct (reserve item db) as [[e|[]] db2] eqn:Hr.
    + apply reserve_error in Hr as ->. by injection Hrun as _ <-.
    + rewrite (IH _ Hrun Hid).
      apply reserve_ok in Hr as (p & _ & _ & _ & _ & _ & ->). simpl.
      by rewrite lookup_insert_ne.
Qed.

(** What a completed reservation loop did to the stock of a product. *)
Lemma reserveAll_quantity items db db1 id product :
  forEach reserve items db = (inr tt, db1) ->
  products db !! id = Some product ->
  exists product1,
    products db1 !! id = Some product1
    /\ Product.quantity product1 = Product.quantity product - ordered id items.
Proof.
  revert db product. induction items as [|item rest IH]; intros db product.
  - intros [= <-] Hp. exists product. simpl. split; [done | lia].
  - rewrite forEach_cons.
    destruct (reserve item db) as [[e|[]] db2] eqn:Hr; [done|].
    intros Hrest Hp.
    apply reserve_ok in Hr as (p & Hl & _ & _ & _ & _ & ->). simpl.
    destruct (decide (Item._id item = id)) as [<-|Hne].
    + assert (p = product) as -> by congruence.
      destruct (IH _ (decremented product item) Hrest) as (p1 & Hp1 & Hq1).
      { simpl. by rewrite lookup_insert_eq. }
      exists p1. split; [done|]. rewrite Hq1. simpl. lia.
    + destruct (IH _ product Hrest) as (p1 & Hp1 & Hq1).
      { simpl. by rewrite lookup_insert_ne. }
      exists p1. split; [done|]. rewrite Hq1. lia.
Qed.

(** Every product of the cart is left with a stock that is not negative
    and a status that agrees with it. *)
Lemma reserveAll_referenced items db db1 item :
  forEach reserve items db = (inr tt, db1) ->
  item ∈ items ->
  exists product1,
    products db1 !! Item._id item = Some product1
    /\ 0 <= Product.quantity product1
    /\ coherent product1.
Proof.
  revert db item. induction items as [|item0 rest IH]; intros db item.
  - intros _ Hin. by apply elem_of_nil in Hin.
  - rewrite forEach_cons.
    destruct (reserve item0 db) as [[e|[]] db2] eqn:Hr; [done|].
    intros Hrest Hin.
    destruct (decide (Item._id item ∈ map Item._id rest)) as [Hlater|Hlast].
    + apply list_elem_of_fmap in Hlater as (item' & Heq & Hin').
      rewrite Heq. by apply (IH db2 item').
    + rewrite (reserveAll_untouched _ _ _ _ _ Hrest Hlast).
      apply reserve_ok in Hr as (p & Hl & Hs & Hq & _ & _ & ->). simpl.
      assert (Item._id item = Item._id item0) as ->.
      { apply elem_of_cons in Hin as [->|Hin]; [done|].
        exfalso. apply Hlast. apply list_elem_of_fmap. eauto. }
      rewrite lookup_insert_eq. eexists; split; [done|]. split.
      * simpl. lia.
      * by apply decremented_coherent.
Qed.

End Reservation.

(** ** Order creation *)

Section Creation.
Context {num : Type} `{!JSNumber num}.
Implicit Types (db : Db num) (item : Item.t num) (items : list (Item.t num)).
Implicit Types (body : OrderBody.t num) (res : Response num).

Lemma blank_false field : blank field = false -> exists s, field = Some s.
Proof. destruct field; [eauto | done]. Qed.

(** A body the middleware lets through has its customer fields and a
    cart that is not empty. *)
Lemma validateOrderInput_fields body :
  validateOrderInput body = None ->
  (exists s, OrderBody.username body = Some s)
  /\ (exists s, OrderBody.fullName body = Some s)
  /\ (exists s, OrderBody.email body = Some s)
  /\ (exists s, OrderBody.phone body = Some s)
  /\ (exists item rest, OrderBody.items body = Some (item :: rest)).
Proof.
  unfold validateOrderInput, reject.
  destruct (blank (OrderBody.username body)) eqn:H1; [done|].
  destruct (blank (OrderBody.fullName body)) eqn:H2; [done|].
  destruct (blank (OrderBody.email body)) eqn:H3; [done|].
  destruct (blank (OrderBody.phone body)) eqn:H4; [done|]. simpl.
  destruct (OrderBody.items body) as [[|item rest]|]; [done| |done].
  intros _.
  repeat split; try (by apply blank_false). by exists item, rest.
Qed.

Lemma errorMessage_nonempty error :
  (forall what, error <> TypeError what) ->
  String.eqb (errorMessage error) "" = false.
Proof. destruct error; intros Hne; try done. by destruct (Hne what). Qed.

Lemma reserveAll_error items db error db1 :
  forEach reserve items db = (inl error, db1) ->
  forall what, error <> TypeError what.
Proof.
  revert db. induction items as [|item rest IH]; intros db; [done|].
  rewrite forEach_cons. destruct (reserve item db) as [[e|[]] db2] eqn:Hr.
  - intros [= <- _]. rewrite reserve_unfold in Hr.
    repeat case_match; simplify_eq; done.
  - apply IH.
Qed.

(** The three outcomes of the handler on a body the middleware lets
    through: a reservation failure, a total mismatch, or a saved order. *)
Lemma createOrder_validated now body db items :
  validateOrderInput body = None ->
  OrderBody.items body = Some items ->
  createOrder now body db =
  match forEach reserve items db with
  | (inl error, db1) => (refused error, fold_left restore items db1)
  | (inr _, db1) =>
      if totalMismatch (calculatedTotal items) (OrderBody.totalAmount body)
      then (refused TotalMismatch, fold_left restore items db1)
      else
        let _id := fresh (dom (orders db1)) in
        (mkResponse 201
           (OrderCreated "Order created successfully" _id (estimate now)),
         mkDb (products db1) (<[_id := orderOf now body items]> (orders db1)))
  end.
Proof.
  intros Hv Hitems. unfold createOrder. rewrite Hv.
  destruct (validateOrderInput_fields _ Hv)
    as ([u Hu] & [f Hf] & [e He] & [p Hp] & _).
  unfold placeOrder, orderOf, bind. rewrite Hitems, Hu, Hf, He, Hp. simpl.
  unfold ret at 1.
  destruct (forEach reserve items db) as [[error|[]] db1] eqn:Hr.
  - unfold refused.
    by rewrite (errorMessage_nonempty _ (reserveAll_error _ _ _ _ Hr)).
  - destruct (totalMismatch _ _); [done|]. reflexivity.
Qed.

(** A creation answered with 201 went through all three stages. *)
Lemma createOrder_created now body db res db' :
  createOrder now body db = (res, db') ->
  code res = 201 ->
  exists items db1,
    validateOrderInput body = None
    /\ OrderBody.items body = Some items
    /\ forEach reserve items db = (inr tt, db1)
    /\ totalMismatch (calculatedTotal items) (OrderBody.totalAmount body)
       = false
    /\ res = mkResponse 201
               (OrderCreated "Order created successfully"
                  (fresh (dom (orders db1))) (estimate now))
    /\ db' = mkDb (products db1)
               (<[fresh (dom (orders db1)) := orderOf now body items]>
                  (orders db1)).
Proof.
  intros Hrun Hcode.
  destruct (validateOrderInput body) as [res0|] eqn:Hv.
  - unfold createOrder in Hrun. rewrite Hv in Hrun.
    injection Hrun as <- <-. revert Hv Hcode. unfold validateOrderInput, reject.
    repeat case_match; intros [= <-]; done.
  - destruct (validateOrderInput_fields _ Hv)
      as (_ & _ & _ & _ & item & rest & Hitems).
    rewrite (createOrder_validated _ _ _ _ Hv Hitems) in Hrun.
    destruct (forEach reserve (item :: rest) db) as [[error|[]] db1] eqn:Hr.
    { injection Hrun as <- <-. done. }
    destruct (totalMismatch _ _) eqn:Ht.
    { injection Hrun as <- <-. done. }
    injection Hrun as <- <-. exists (item :: rest), db1. done.
Qed.

End Creation.

(** ** Stock after a successful creation *)

Section StockSafety.
Context {num : Type} `{!JSNumber num}.
Implicit Types (db : Db num) (item : Item.t num) (items : list (Item.t num)).

Lemma reserveAll_absent items db r db1 id :
  forEach reserve items db = (r, db1) ->
  products db !! id = None -> products db1 !! id = None.
Proof.
  revert db. induction items as [|item rest IH]; intros db.
  - by intros [= _ <-].
  - rewrite forEach_cons.
    destruct (reserve item db) as [[e|[]] db2] eqn:Hr.
    + apply reserve_error in Hr as ->. by intros [= _ <-].
    + intros Hrest Hnone. apply (IH _ Hrest).
      apply reserve_ok in Hr as (p & Hl & _ & _ & _ & _ & ->). simpl.
      rewrite lookup_insert_ne; [done|]. congruence.
Qed.

(** A cart that names a product on one line only orders that line's
    quantity of it. *)
Lemma ordered_once items item :
  NoDup (map Item._id items) -> item ∈ items ->
  ordered (Item._id item) items = Item.quantity item.
Proof.
  induction items as [|item0 rest IH]; simpl.
  - intros _ Hin. by apply elem_of_nil in Hin.
  - intros Hnd Hin. apply NoDup_cons in Hnd as [Hfresh Hnd].
    assert (forall id, id ∉ map Item._id rest -> ordered id rest = 0) as Hzero.
    { clear. intros id. induction rest as [|x rest IH]; simpl; [done|].
      intros Hid. apply not_elem_of_cons in Hid as [Hne Hid].
      rewrite decide_False by done. rewrite IH by done. lia. }
    apply elem_of_cons in Hin as [->|Hin].
    + rewrite decide_True by done. rewrite Hzero by done. lia.
    + rewrite decide_False.
      * rewrite IH by done. lia.
      * intros Heq. apply Hfresh. rewrite Heq.
        apply list_elem_of_fmap. eauto.
Qed.

(** C1. On every successful order creation, with stock and cart
    quantities in the range where the program's arithmetic is exact, each
    product named by a cart item ends with a quantity that is not negative
    and that equals its quantity before the call minus the quantity
    ordered of it (the sum over the cart lines naming it, which is the
    line's own quantity when the cart names each product once); and once
    the guard quantity >= requested holds for an item, its reservation
    cannot end in the insufficient-stock error. *)
Theorem C1_stock_never_negative :
  (forall now (body : OrderBody.t num) db res db' items item,
      createOrder now body db = (res, db') ->
      code res = 201 ->
      OrderBody.items body = Some items ->
      exactStock db items ->
      item ∈ items ->
      exists before after,
        products db !! Item._id item = Some before
        /\ products db' !! Item._id item = Some after
        /\ 0 <= Product.quantity after
        /\ Product.quantity after
           = Product.quantity before - ordered (Item._id item) items
        /\ (NoDup (map Item._id items) ->
            Product.quantity after
            = Product.quantity before - Item.quantity item))
  /\ (forall item db product name available,
        products db !! Item._id item = Some product ->
        Item.quantity item <= Product.quantity product ->
        fst (reserve item db) <> inl (InsufficientStock name available)).
Proof.
  split.
  - intros now body db res db' items item Hrun Hcode Hitems _ Hin.
    apply createOrder_created in Hrun
      as (items' & db1 & _ & Hitems' & Hr & _ & _ & ->); [|done].
    assert (items' = items) as -> by congruence. simpl.
    destruct (reserveAll_referenced _ _ _ _ Hr Hin) as (after & Ha & Hpos & _).
    destruct (products db !! Item._id item) as [before|] eqn:Hb.
    + destruct (reserveAll_quantity _ _ _ _ _ Hr Hb) as (after' & Ha' & Hq).
      assert (after' = after) as -> by congruence.
      exists before, after. repeat split; try done.
      intros Hnd. by rewrite Hq, ordered_once.
    + rewrite (reserveAll_absent _ _ _ _ _ Hr Hb) in Ha. done.
  - intros item db product name available Hl Hq. rewrite reserve_unfold, Hl.
    apply Z.ltb_ge in Hq. rewrite Hq. repeat case_match; simpl; congruence.
Qed.

End StockSafety.

(** Two frames bought out of five: three are left. *)
Lemma C1_stock_never_negative_witness :
  exists before after : Product.t Q,
    products Shop.catalogue !! 1%N = Some before
    /\ products
         (snd (createOrder 1000 (Shop.request [Shop.frames 2] 180%Q)
                 Shop.catalogue)) !! 1%N = Some after
    /\ 0 <= Product.quantity after
    /\ Product.quantity after = Product.quantity before - 2
    /\ (NoDup [1%N] -> Product.quantity after = Product.quantity before - 2).
Proof.
  apply (proj1 C1_stock_never_negative 1000
           (Shop.request [Shop.frames 2] 180%Q) Shop.catalogue
           (fst (createOrder 1000 (Shop.request [Shop.frames 2] 180%Q)
                   Shop.catalogue))
           _ [Shop.frames 2] (Shop.frames 2)).
  - apply surjective_pairing.
  - vm_compute. reflexivity.
  - reflexivity.
  - apply exactStock_check. vm_compute. reflexivity.
  - apply list_elem_of_here.
Defined.

(** C1 as stated, for every stock, fails in the numbers of the program:
    a stock of 2^53 + 2 passes the check for a line of 1 and is left at
    2^53, which is not the stock before less 1. *)
Lemma C1_stock_never_negative_counterexample :
  decrementQuantity (float_of_Z (2 ^ 53 + 2)) (float_of_Z 1)
  = Some (float_of_Z (2 ^ 53))
  /\ float_of_Z (2 ^ 53 + 2) = 9007199254740994%float
  /\ float_of_Z (2 ^ 53) = 9007199254740992%float
  /\ 2 ^ 53 <> 2 ^ 53 + 2 - 1.
Proof. repeat split; try (vm_compute; reflexivity). lia. Qed.

(** ** The reservation loop against its rules *)

Section ReservationRules.
Context {num : Type} `{!JSNumber num}.
Implicit Types (db : Db num) (item : Item.t num) (items : list (Item.t num)).





End ReservationRules.

(** ** Restoration loops *)

Section Restoration.
Context {num : Type} `{!JSNumber num}.
Implicit Types (db : Db num) (item : Item.t num) (items : list (Item.t num)).
Implicit Types (product : Product.t num) (id : ObjectId).

Lemma ordered_absent items id :
  id ∉ map Item._id items -> ordered id items = 0.
Proof.
  induction items as [|item rest IH]; simpl; [done|].
  intros Hid. apply not_elem_of_cons in Hid as [Hne Hid].
  rewrite decide_False by done. rewrite IH by done. lia.
Qed.

Lemma restock_restock product q1 s1 q2 s2 :
  Product.restock (Product.restock product q1 s1) q2 s2
  = Product.restock product q2 s2.
Proof. done. Qed.

(** *** Cancellation *)

Lemma cancelRestore_orders db item :
  orders (cancelRestore db item) = orders db.
Proof. unfold cancelRestore. by case_match. Qed.

Lemma cancelRestore_lookup db item id :
  products (cancelRestore db item) !! id =
  (fun product =>
     if decide (Item._id item = id)
     then Product.restock product
            (Product.quantity product + Item.quantity item) Available
     else product) <$> products db !! id.
Proof.
  unfold cancelRestore.
  destruct (products db !! Item._id item) as [p|] eqn:Hl; simpl.
  - destruct (decide (Item._id item = id)) as [<-|Hne].
    + by rewrite lookup_insert_eq, Hl.
    + rewrite lookup_insert_ne by done. by destruct (products db !! id).
  - destruct (decide (Item._id item = id)) as [<-|Hne].
    + by rewrite Hl.
    + by destruct (products db !! id).
Qed.

Lemma cancelAll_orders items db :
  orders (fold_left cancelRestore items db) = orders db.
Proof.
  revert db. induction items as [|item rest IH]; intros db; simpl; [done|].
  by rewrite IH, cancelRestore_orders.
Qed.

(** The cancellation loop, product by product: a product some order line
    names gets the lines' quantities added and becomes Available; any
    other product, and any id without a product, is left as it was. *)
Lemma cancelAll_lookup items db id :
  products (fold_left cancelRestore items db) !! id =
  (fun product =>
     if decide (id ∈ map Item._id items)
     then Product.restock product
            (Product.quantity product + ordered id items) Available
     else product) <$> products db !! id.
Proof.
  revert db. induction items as [|item rest IH]; intros db; simpl.
  - by destruct (products db !! id).
  - rewrite IH, cancelRestore_lookup.
    destruct (products db !! id) as [p|]; simpl; [|done]. f_equal.
    destruct (decide (Item._id item = id)) as [Heq|Hne];
      destruct (decide (id ∈ map Item._id rest)) as [Hin|Hout];
      destruct (decide (id ∈ Item._id item :: map Item._id rest))
        as [Hin'|Hout']; simpl.
    + unfold Product.restock; simpl; f_equal; lia.
    + destruct Hout'. by right.
    + rewrite ordered_absent by done.
      unfold Product.restock; simpl; f_equal; lia.
    + destruct Hout'. rewrite Heq. left.
    + unfold Product.restock; simpl; f_equal; lia.
    + destruct Hout'. by right.
    + by apply elem_of_cons in Hin' as [->|Hin'].
    + done.
Qed.

(** *** Compensation *)

Lemma restore_orders db item : orders (restore db item) = orders db.
Proof. unfold restore. by case_match. Qed.

Lemma restore_lookup db item id :
  products (restore db item) !! id =
  (fun product =>
     if decide (Item._id item = id)
     then Product.restock product
            (Product.quantity product + Item.quantity item)
            (if 0 <? Product.quantity product + Item.quantity item
             then Available else Product.status product)
     else product) <$> products db !! id.
Proof.
  unfold restore.
  destruct (products db !! Item._id item) as [p|] eqn:Hl; simpl.
  - destruct (decide (Item._id item = id)) as [<-|Hne].
    + by rewrite lookup_insert_eq, Hl.
    + rewrite lookup_insert_ne by done. by destruct (products db !! id).
  - destruct (decide (Item._id item = id)) as [<-|Hne].
    + by rewrite Hl.
    + by destruct (products db !! id).
Qed.

Lemma restoreAll_orders items db :
  orders (fold_left restore items db) = orders db.
Proof.
  revert db. induction items as [|item rest IH]; intros db; simpl; [done|].
  by rewrite IH, restore_orders.
Qed.

Lemma restoreAll_untouched items db id :
  id ∉ map Item._id items ->
  products (fold_left restore items db) !! id = products db !! id.
Proof.
  revert db. induction items as [|item rest IH]; intros db; simpl; [done|].
  intros Hid. apply not_elem_of_cons in Hid as [Hne Hid].
  rewrite IH, restore_lookup by done.
  destruct (products db !! id); simpl; [|done]. by rewrite decide_False.
Qed.

(** The compensation loop adds to every product the quantity the cart
    ordered of it, whether or not the reservation had taken it. *)
Lemma restoreAll_quantity items db id product :
  products db !! id = Some product ->
  exists product',
    products (fold_left restore items db) !! id = Some product'
    /\ Product.quantity product' = Product.quantity product + ordered id items.
Proof.
  revert db product. induction items as [|item rest IH]; intros db p Hl; simpl.
  - exists p. split; [done | lia].
  - destruct (IH (restore db item)
                (if decide (Item._id item = id)
                 then Product.restock p
                        (Product.quantity p + Item.quantity item)
                        (if 0 <? Product.quantity p + Item.quantity item
                         then Available else Product.status p)
                 else p)) as (p' & Hl' & Hq').
    { by rewrite restore_lookup, Hl. }
    exists p'. split; [done|]. rewrite Hq'. case_decide; simpl; lia.
Qed.

(** With positive item quantities and a stock that is not negative, the
    compensation loop leaves every product of the cart Available with a
    positive stock. *)
Lemma restoreAll_available items db id product :
  (forall item, item ∈ items -> 0 < Item.quantity item) ->
  products db !! id = Some product ->
  0 <= Product.quantity product ->
  id ∈ map Item._id items ->
  exists product',
    products (fold_left restore items db) !! id = Some product'
    /\ Product.status product' = Available
    /\ 0 < Product.quantity product'.
Proof.
  revert db product.
  induction items as [|item rest IH]; intros db p Hpos Hl Hq Hin; simpl.
  - by apply elem_of_nil in Hin.
  - assert (0 < Item.quantity item) as Hitem by (apply Hpos; left).
    assert (forall i, i ∈ rest -> 0 < Item.quantity i) as Hrest
      by (intros i Hi; apply Hpos; by right).
    pose proof (restore_lookup db item id) as Hstep. rewrite Hl in Hstep.
    simpl in Hstep.
    destruct (decide (id ∈ map Item._id rest)) as [Hlater|Hlast].
    + eapply IH; [done | exact Hstep | | done].
      case_decide; simpl; lia.
    + rewrite restoreAll_untouched, Hstep by done.
      apply elem_of_cons in Hin as [->|Hin]; [|done].
      rewrite decide_True by done. eexists; split; [done|]. simpl.
      assert ((0 <? Product.quantity p + Item.quantity item) = true) as ->
        by (apply Z.ltb_lt; lia).
      split; [done | lia].
Qed.

End Restoration.

(** ** Status transitions *)

Section Transitions.
Context {num : Type} `{!JSNumber num}.
Implicit Types (db : Db num) (item : Item.t num) (items : list (Item.t num)).
Implicit Types (order : Order.t num) (body : StatusBody.t).

(** C4. An order whose status is Cancelled rejects every status update,
    whichever of the five statuses is asked for, Cancelled included: the
    answer is 400 with the cannot-update-cancelled-order message, and
    neither the order nor any product changes. *)
Theorem C4_cancelled_is_terminal now id body db order target :
  orders db !! id = Some order ->
  Order.status order = Cancelled ->
  StatusBody.status body = Some target ->
  target ∈ ["Pending"; "Processing"; "Shipped"; "Delivered"; "Cancelled"] ->
  updateOrderStatus now id body db
  = (mkResponse 400 (Message "Cannot update status of cancelled order"), db).
Proof.
  intros Ho Hs Hb Ht. unfold updateOrderStatus. rewrite Hb, Ho. simpl.
  rewrite bool_decide_eq_true_2 by done.
  repeat (apply elem_of_cons in Ht as [->|Ht]; [done|]).
  by apply elem_of_nil in Ht.
Qed.

(** A transition to Cancelled out of any other status. *)
Lemma updateOrderStatus_cancel now id body db order :
  orders db !! id = Some order ->
  Order.status order <> Cancelled ->
  StatusBody.status body = Some "Cancelled" ->
  exists order',
    Order.status order' = Cancelled
    /\ Order.items order' = Order.items order
    /\ updateOrderStatus now id body db
       = (mkResponse 200
            (OrderUpdated "Order status updated successfully" order'),
          mkDb (products (fold_left cancelRestore (Order.items order) db))
            (<[id := order']> (orders db))).
Proof.
  intros Ho Hs Hb. unfold updateOrderStatus. rewrite Hb, Ho. simpl.
  rewrite bool_decide_eq_false_2 by done. simpl.
  eexists. split; [|split]; [| |by rewrite cancelAll_orders]; done.
Qed.

(** C5. A status update to Cancelled on an order that is not Cancelled
    succeeds, and for every item of the order the product, when there is
    one, has the ordered quantity added to its stock (stock and order
    quantities being in the range where the program's arithmetic is
    exact) and its status set to Available whatever the resulting stock
    is; an item without a product is passed over and the transition still
    goes through. *)
Theorem C5_cancellation_restores_stock now id body db order res db' :
  orders db !! id = Some order ->
  Order.status order <> Cancelled ->
  StatusBody.status body = Some "Cancelled" ->
  exactStock db (Order.items order) ->
  updateOrderStatus now id body db = (res, db') ->
  code res = 200
  /\ (exists order',
        orders db' !! id = Some order' /\ Order.status order' = Cancelled)
  /\ (forall item,
        item ∈ Order.items order ->
        match products db !! Item._id item with
        | Some before =>
            exists after,
              products db' !! Item._id item = Some after
              /\ Product.status after = Available
              /\ Product.quantity after
                 = Product.quantity before
                   + ordered (Item._id item) (Order.items order)
              /\ (NoDup (map Item._id (Order.items order)) ->
                  Product.quantity after
                  = Product.quantity before + Item.quantity item)
        | None => products db' !! Item._id item = None
        end)
  /\ (forall pid,
        pid ∉ map Item._id (Order.items order) ->
        products db' !! pid = products db !! pid).
Proof.
  intros Ho Hs Hb _ Hrun.
  destruct (updateOrderStatus_cancel now id body db order Ho Hs Hb)
    as (order' & Hs' & _ & Heq).
  rewrite Heq in Hrun. injection Hrun as <- <-. simpl.
  split; [done|]. split.
  { exists order'. by rewrite lookup_insert_eq. }
  split.
  - intros item Hin. rewrite cancelAll_lookup.
    destruct (products db !! Item._id item) as [before|]; simpl; [|done].
    destruct (decide (Item._id item ∈ map Item._id (Order.items order)))
      as [_|Hout]; [|destruct Hout; apply list_elem_of_fmap; eauto].
    eexists; split; [done|]. simpl. repeat split.
    intros Hnd. by rewrite ordered_once.
  - intros pid Hpid. rewrite cancelAll_lookup.
    destruct (products db !! pid); simpl; [|done]. by rewrite decide_False.
Qed.

End Transitions.

(** A cancelled order stays cancelled when asked to become Shipped. *)
Lemma C4_cancelled_is_terminal_witness :
  let order : Order.t Q :=
    Order.mk "bob" "Bob B" "bob@example.com" "+91 98765-43210"
      [Shop.frames 2] (Some 180%Q) (Some Shop.home) (Some "COD")
      432001000 Cancelled 1000 None None in
  let db := mkDb (products Shop.catalogue) {[ 7%N := order ]} in
  updateOrderStatus 2000 7%N (StatusBody.mk (Some "Shipped") None None) db
  = (mkResponse 400 (Message "Cannot update status of cancelled order"), db).
Proof.
  intros order db.
  apply (C4_cancelled_is_terminal 2000 7%N
           (StatusBody.mk (Some "Shipped") None None) db order "Shipped").
  - reflexivity.
  - reflexivity.
  - reflexivity.
  - set_solver.
Defined.

(** Cancelling a pending order of two frames and an unknown product. *)
Lemma C5_cancellation_restores_stock_witness :
  let order : Order.t Q :=
    Order.mk "bob" "Bob B" "bob@example.com" "+91 98765-43210"
      [Shop.frames 2; Item.mk 9%N "Gone" 1 5%Q 0%Q] (Some 185%Q)
      (Some Shop.home) (Some "COD") 432001000 Pending 1000 None None in
  let db := mkDb (products Shop.catalogue) {[ 7%N := order ]} in
  let out := updateOrderStatus 2000 7%N Shop.cancel db in
  code (fst out) = 200
  /\ products (snd out) !! 1%N = Some (Shop.frame 7 Available)
  /\ products (snd out) !! 9%N = None.
Proof.
  intros order db out.
  destruct (C5_cancellation_restores_stock 2000 7%N Shop.cancel db order
              (fst out) (snd out)) as (Hcode & _ & Hitems & _).
  - reflexivity.
  - discriminate.
  - reflexivity.
  - apply exactStock_check. vm_compute. reflexivity.
  - apply surjective_pairing.
  - split; [exact Hcode|]. split.
    + vm_compute. reflexivity.
    + apply (Hitems (Item.mk 9%N "Gone" 1 5%Q 0%Q)). set_solver.
Defined.

(** C5 as stated, for every stock, fails in the numbers of the program:
    putting a line of 1 back on a stock of 2^53 leaves 2^53, not the stock
    plus 1. *)
Lemma C5_cancellation_restores_stock_counterexample :
  restoreQuantity (float_of_Z (2 ^ 53)) (float_of_Z 1) = float_of_Z (2 ^ 53)
  /\ float_of_Z (2 ^ 53) = 9007199254740992%float
  /\ 2 ^ 53 <> 2 ^ 53 + 1.
Proof. repeat split; try (vm_compute; reflexivity). lia. Qed.

(** ** Status and quantity after the workflow's mutations *)

Section Coherence.
Context {num : Type} `{!JSNumber num}.
Implicit Types (db : Db num) (item : Item.t num) (items : list (Item.t num)).

Lemma reserveAll_stocked items db r db1 :
  forEach reserve items db = (r, db1) -> stocked db -> stocked db1.
Proof.
  revert db. induction items as [|item rest IH]; intros db.
  - by intros [= _ <-].
  - rewrite forEach_cons.
    destruct (reserve item db) as [[e|[]] db2] eqn:Hr.
    + apply reserve_error in Hr as ->. by intros [= _ <-].
    + intros Hrest Hdb. apply (IH _ Hrest).
      apply reserve_ok in Hr as (p & Hl & _ & Hq & _ & _ & ->).
      intros id product. simpl. rewrite lookup_insert.
      case_decide; [|by apply Hdb]. intros [= <-]. simpl. lia.
Qed.

Lemma restoreAll_absent items db id :
  products db !! id = None ->
  products (fold_left restore items db) !! id = None.
Proof.
  revert db. induction items as [|item rest IH]; intros db Hl; simpl; [done|].
  apply IH. by rewrite restore_lookup, Hl.
Qed.

Lemma ordered_positive items id :
  (forall item, item ∈ items -> 0 < Item.quantity item) ->
  id ∈ map Item._id items -> 0 < ordered id items.
Proof.
  induction items as [|item rest IH]; simpl; intros Hpos Hin.
  - by apply elem_of_nil in Hin.
  - assert (0 < Item.quantity item) by (apply Hpos; left).
    assert (forall i, i ∈ rest -> 0 < Item.quantity i) as Hrest
      by (intros i Hi; apply Hpos; by right).
    destruct (decide (id ∈ map Item._id rest)) as [Hlater|Hlast].
    + specialize (IH Hrest Hlater). case_decide; lia.
    + rewrite ordered_absent by done.
      apply elem_of_cons in Hin as [->|Hin]; [|done].
      rewrite decide_True by done. lia.
Qed.

(** A creation the handler refuses after validation has run the
    compensation loop over the whole cart. *)
Lemma createOrder_refused now (body : OrderBody.t num) db res db' items :
  validateOrderInput body = None ->
  OrderBody.items body = Some items ->
  createOrder now body db = (res, db') ->
  code res = 400 ->
  exists outcome db1,
    forEach reserve items db = (outcome, db1)
    /\ db' = fold_left restore items db1.
Proof.
  intros Hv Hitems Hrun Hcode.
  rewrite (createOrder_validated _ _ _ _ Hv Hitems) in Hrun.
  destruct (forEach reserve items db) as [[error|[]] db1] eqn:Hr.
  - injection Hrun as _ <-. eauto.
  - destruct (totalMismatch _ _).
    + injection Hrun as _ <-. eauto.
    + injection Hrun as <- _. done.
Qed.

(** C2, as the code has it.  After the decrements of a successful
    creation every product of the cart has status NotAvailable exactly
    when its quantity is 0.  After the compensation of a refused creation,
    and after the restoration of a cancellation, the same holds for every
    product of the cart or order provided the item quantities are positive
    and no stored quantity was negative: the product is then Available
    with a positive quantity. *)
Theorem C2_status_follows_quantity :
  (forall now (body : OrderBody.t num) db res db' items item,
      createOrder now body db = (res, db') ->
      code res = 201 ->
      OrderBody.items body = Some items ->
      item ∈ items ->
      exists product,
        products db' !! Item._id item = Some product /\ coherent product)
  /\ (forall now (body : OrderBody.t num) db res db' items item product,
        createOrder now body db = (res, db') ->
        validateOrderInput body = None ->
        code res = 400 ->
        OrderBody.items body = Some items ->
        (forall i, i ∈ items -> 0 < Item.quantity i) ->
        stocked db ->
        item ∈ items ->
        products db' !! Item._id item = Some product ->
        coherent product
        /\ Product.status product = Available
        /\ 0 < Product.quantity product)
  /\ (forall now id body db (order : Order.t num) res db' item product,
        orders db !! id = Some order ->
        Order.status order <> Cancelled ->
        StatusBody.status body = Some "Cancelled" ->
        updateOrderStatus now id body db = (res, db') ->
        (forall i, i ∈ Order.items order -> 0 < Item.quantity i) ->
        stocked db ->
        item ∈ Order.items order ->
        products db' !! Item._id item = Some product ->
        coherent product
        /\ Product.status product = Available
        /\ 0 < Product.quantity product).
Proof.
  assert (forall product : Product.t num,
             Product.status product = Available ->
             0 < Product.quantity product -> coherent product) as Hgood.
  { intros p Hs Hq. unfold coherent. rewrite Hs. split; [done | lia]. }
  split; [|split].
  - intros now body db res db' items item Hrun Hcode Hitems Hin.
    apply createOrder_created in Hrun
      as (items' & db1 & _ & Hitems' & Hr & _ & _ & ->); [|done].
    assert (items' = items) as -> by congruence. simpl.
    destruct (reserveAll_referenced _ _ _ _ Hr Hin) as (p & Hp & _ & Hc).
    eauto.
  - intros now body db res db' items item product
      Hrun Hv Hcode Hitems Hpos Hdb Hin Hl.
    destruct (createOrder_refused _ _ _ _ _ _ Hv Hitems Hrun Hcode)
      as (outcome & db1 & Hr & ->).
    pose proof (reserveAll_stocked _ _ _ _ Hr Hdb) as Hdb1.
    destruct (products db1 !! Item._id item) as [p1|] eqn:Hl1.
    + destruct (restoreAll_available items db1 _ p1 Hpos Hl1)
        as (p' & Hl' & Hs & Hq).
      { by eapply Hdb1. }
      { apply list_elem_of_fmap. eauto. }
      assert (p' = product) as -> by congruence. auto.
    + by rewrite (restoreAll_absent _ _ _ Hl1) in Hl.
  - intros now id body db order res db' item product
      Ho Hs Hb Hrun Hpos Hdb Hin Hl.
    destruct (updateOrderStatus_cancel now id body db order Ho Hs Hb)
      as (order' & _ & _ & Heq).
    rewrite Heq in Hrun. injection Hrun as _ <-. simpl in Hl.
    rewrite cancelAll_lookup in Hl.
    destruct (products db !! Item._id item) as [p|] eqn:Hp; [|done].
    simpl in Hl. rewrite decide_True in Hl by (apply list_elem_of_fmap; eauto).
    injection Hl as <-. simpl.
    assert (0 < Product.quantity p
                + ordered (Item._id item) (Order.items order)).
    { pose proof (Hdb _ _ Hp).
      assert (0 < ordered (Item._id item) (Order.items order)).
      { apply ordered_positive; [done|]. apply list_elem_of_fmap. eauto. }
      lia. }
    split; [|done]. by apply Hgood.
Qed.

(** The compensation of a two-line cart whose second line lacks stock,
    with quantities in the exact range: the first product gets its
    quantity back, the second, which was never decremented, gets the
    quantity of its line on top of its stock. *)
Lemma compensation_of_untaken_item now (body : OrderBody.t num) db
    item1 item2 product1 product2 :
  validateOrderInput body = None ->
  OrderBody.items body = Some [item1; item2] ->
  exactStock db [item1; item2] ->
  Item._id item1 <> Item._id item2 ->
  products db !! Item._id item1 = Some product1 ->
  fst (reserve item1 db) = inr tt ->
  products db !! Item._id item2 = Some product2 ->
  Product.status product2 = Available ->
  Product.quantity product2 < Item.quantity item2 ->
  exists db' after1 after2,
    createOrder now body db
    = (refused (InsufficientStock (Item.name item2)
                  (Product.quantity product2)), db')
    /\ products db' !! Item._id item1 = Some after1
    /\ Product.quantity after1 = Product.quantity product1
    /\ products db' !! Item._id item2 = Some after2
    /\ Product.quantity after2
       = Product.quantity product2 + Item.quantity item2.
Proof.
  intros Hv Hitems _ Hne Hl1 Hr1 Hl2 Hs2 Hq2.
  rewrite (createOrder_validated _ _ _ _ Hv Hitems).
  rewrite forEach_cons.
  destruct (reserve item1 db) as [[e|[]] db1] eqn:Hr; [done|].
  apply reserve_ok in Hr as (p & Hl & _ & _ & _ & _ & ->).
  assert (p = product1) as -> by congruence.
  rewrite forEach_cons, reserve_unfold. simpl.
  rewrite lookup_insert_ne, Hl2 by done.
  rewrite bool_decide_eq_true_2 by done. simpl.
  apply Z.ltb_lt in Hq2. rewrite Hq2.
  set (db1 := mkDb _ _).
  destruct (restoreAll_quantity [item1; item2] db1 (Item._id item1)
              (decremented product1 item1)) as (after1 & Ha1 & Hq1).
  { simpl. by rewrite lookup_insert_eq. }
  destruct (restoreAll_quantity [item1; item2] db1 (Item._id item2) product2)
    as (after2 & Ha2 & Hq2').
  { simpl. by rewrite lookup_insert_ne. }
  exists (fold_left restore [item1; item2] db1), after1, after2.
  repeat split; try done.
  - rewrite Hq1. simpl. rewrite decide_True, decide_False by done. lia.
  - rewrite Hq2'. simpl. rewrite decide_False, decide_True by done. lia.
Qed.

End Coherence.

(** A mismatching total on a cart of five frames: the compensation leaves
    the frames Available. *)
Lemma C2_status_follows_quantity_witness :
  coherent (Shop.frame (num := Q) 5 Available)
  /\ Product.status (Shop.frame (num := Q) 5 Available) = Available
  /\ 0 < Product.quantity (Shop.frame (num := Q) 5 Available).
Proof.
  pose (body := Shop.request [Shop.frames 5] 1%Q).
  pose (out := createOrder 1000 body Shop.catalogue).
  apply (proj1 (proj2 C2_status_follows_quantity) 1000 body Shop.catalogue
           (fst out) (snd out) [Shop.frames 5] (Shop.frames 5)
           (Shop.frame 5 Available)).
  - apply surjective_pairing.
  - vm_compute. reflexivity.
  - vm_compute. reflexivity.
  - reflexivity.
  - intros i Hi. apply list_elem_of_singleton in Hi as ->. simpl. lia.
  - intros id p. unfold Shop.catalogue. simpl.
    rewrite !lookup_insert. repeat case_decide; try done.
    + intros [= <-]. simpl. lia.
    + intros [= <-]. simpl. lia.
  - apply list_elem_of_here.
  - vm_compute. reflexivity.
Defined.

(** C2 as stated fails.  An order with a line of quantity 0 for the diya
    is created, a second order buys the last diya (quantity 0, status
    NotAvailable), and the first order is cancelled: the cancellation
    saves the diya with quantity 0 and status Available. *)
Lemma C2_status_follows_quantity_counterexample :
  let db1 :=
    snd (createOrder 1000 (Shop.request [Shop.frames 2; Shop.diyas 0] 180%Q)
           Shop.catalogue) in
  let db2 := snd (createOrder 2000 (Shop.request [Shop.diyas 1] 40%Q) db1) in
  let out := updateOrderStatus 3000 0%N Shop.cancel db2 in
  products db2 !! 2%N = Some (Shop.diya 0 NotAvailable)
  /\ code (fst out) = 200
  /\ products (snd out) !! 2%N = Some (Shop.diya 0 Available)
  /\ ~ coherent (Shop.diya (num := Q) 0 Available).
Proof.
  repeat split; try (vm_compute; reflexivity).
  unfold coherent. simpl. intros [_ Hq]. by specialize (Hq eq_refl).
Qed.

(** C3 at a cart of two frames and three diyas, with five frames and one
    diya on the shelf: the creation is refused for lack of diyas, the
    frames are back at five, and the diyas, never decremented, are at
    four, so the shelf is not what it was before the call. *)
Theorem C3_compensation_inflates_stock :
  let out :=
    createOrder 1000 (Shop.request [Shop.frames 2; Shop.diyas 3] 300%Q)
      Shop.catalogue in
  fst out
  = mkResponse 400 (Message "Insufficient stock for Diya. Available: 1")
  /\ products (snd out) !! 1%N = products Shop.catalogue !! 1%N
  /\ products Shop.catalogue !! 2%N = Some (Shop.diya 1 Available)
  /\ products (snd out) !! 2%N = Some (Shop.diya 4 Available)
  /\ products (snd out) <> products (Shop.catalogue (num := Q)).
Proof.
  repeat split; try (vm_compute; reflexivity).
  intros Heq. apply (f_equal (fun m => Product.quantity <$> m !! 2%N)) in Heq.
  vm_compute in Heq. discriminate.
Qed.

(** ** Total verification *)

Lemma calculatedTotal_from (items : list (Item.t Q)) (sum : Q) :
  (fold_left
     (fun sum item =>
        let price := num_mul (Item.price item) (num_of_Z (Item.quantity item)) in
        let discount :=
          num_mul price (num_div (Item.offer item) (num_of_Z 100)) in
        num_add sum (num_sub price discount))
     items sum == sum + expectedTotal items)%Q.
Proof.
  revert sum. induction items as [|item rest IH]; intros sum; simpl.
  - ring.
  - rewrite IH. change (inject_Z 100) with 100%Q. field.
Qed.

(** In exact arithmetic the reduction of the handler is the sum of
    price * quantity * (1 - offer/100). *)
Lemma calculatedTotal_expected (items : list (Item.t Q)) :
  (calculatedTotal items == expectedTotal items)%Q.
Proof.
  unfold calculatedTotal. rewrite calculatedTotal_from.
  change (num_of_Z 0) with 0%Q. ring.
Qed.

Lemma totalMismatch_exact (items : list (Item.t Q)) (totalAmount : Q) :
  totalMismatch (calculatedTotal items) (Some totalAmount) = true
  <-> (1 # 100 < Qabs (expectedTotal items - totalAmount))%Q.
Proof.
  assert (Qabs (calculatedTotal items - totalAmount)
          == Qabs (expectedTotal items - totalAmount))%Q as Heq
    by (by rewrite calculatedTotal_expected).
  unfold totalMismatch. simpl. rewrite negb_true_iff.
  rewrite <- not_true_iff_false, Qle_bool_iff, Heq. split.
  - apply Qnot_le_lt.
  - apply Qlt_not_le.
Qed.

(** Beyond 2^53 the subtraction of the program is no longer that of the
    integers: 2^53 + 2 less 1 is 2^53 in binary64. *)
Lemma binary64_inexact_beyond_bound :
  num_sub (num_of_Z (2 ^ 53 + 2)) (num_of_Z 1) = (num_of_Z (2 ^ 53) : float).
Proof. vm_compute. reflexivity. Qed.

(** C6, as the code has it.  Once every item has passed reservation the
    handler forms the total in its own number arithmetic, adding up in
    cart order, from 0, price * quantity less that product times
    offer / 100; the creation fails with the total-mismatch error exactly
    when the absolute difference between this total and the claimed
    totalAmount, formed in the same arithmetic, exceeds the literal 0.01,
    and is answered 201 otherwise.  In exact arithmetic the total is the
    sum of price * quantity * (1 - offer/100).  In binary64, for the
    single item {price 100, quantity 2, offer 10}, the claimed totals
    180.00 and 180.005 succeed and 179.98 fails. *)
Theorem C6_total_check_in_program_arithmetic :
  (forall (num : Type) (arithmetic : JSNumber num) now (body : OrderBody.t num)
          db items db1 totalAmount,
      validateOrderInput body = None ->
      OrderBody.items body = Some items ->
      OrderBody.totalAmount body = Some totalAmount ->
      forEach reserve items db = (inr tt, db1) ->
      (fst (createOrder now body db) = refused TotalMismatch
       <-> num_ltb num_hundredth
             (num_abs (num_sub (calculatedTotal items) totalAmount)) = true)
      /\ (code (fst (createOrder now body db)) = 201
          <-> num_ltb num_hundredth
                (num_abs (num_sub (calculatedTotal items) totalAmount))
              = false))
  /\ (forall items : list (Item.t Q),
        (calculatedTotal items == expectedTotal items)%Q)
  /\ code (fst (createOrder 1000 (Shop.request [Shop.frames 2] 180%float)
                  Shop.catalogue)) = 201
  /\ code (fst (createOrder 1000
                  (Shop.request [Shop.frames 2]
                     0x1.68028f5c28f5cp+7%float (* 180.005 *))
                  Shop.catalogue)) = 201
  /\ fst (createOrder 1000
            (Shop.request [Shop.frames 2]
               0x1.67f5c28f5c28fp+7%float (* 179.98 *))
            Shop.catalogue) = refused TotalMismatch.
Proof.
  split; [|split; [apply calculatedTotal_expected|]];
    [|repeat split; vm_compute; reflexivity].
  intros num arithmetic now body db items db1 totalAmount Hv Hitems Ht Hr.
  rewrite (createOrder_validated _ _ _ _ Hv Hitems), Hr, Ht.
  unfold totalMismatch.
  destruct (num_ltb num_hundredth
              (num_abs (num_sub (calculatedTotal items) totalAmount)));
    simpl; split; split; done.
Qed.

(** Two frames at 100 with a 10 percent offer, claimed at 180, in
    binary64. *)
Lemma C6_total_check_in_program_arithmetic_witness :
  let body := Shop.request [Shop.frames 2] 180%float in
  (fst (createOrder 1000 body Shop.catalogue) = refused TotalMismatch
   <-> num_ltb num_hundredth
         (num_abs (num_sub (calculatedTotal [Shop.frames 2]) 180%float))
       = true)
  /\ (code (fst (createOrder 1000 body Shop.catalogue)) = 201
      <-> num_ltb num_hundredth
            (num_abs (num_sub (calculatedTotal [Shop.frames 2]) 180%float))
          = false).
Proof.
  intros body.
  apply (proj1 C6_total_check_in_program_arithmetic float float_JSNumber
           1000 body Shop.catalogue [Shop.frames 2]
           (snd (forEach reserve [Shop.frames 2] Shop.catalogue)) 180%float).
  - vm_compute. reflexivity.
  - reflexivity.
  - reflexivity.
  - vm_compute. reflexivity.
Defined.

(** C6 as stated fails.  One ribbon at price 1 with an offer of 1 percent
    is claimed at a total of 1: the line passes reservation, the expected
    total 0.99 differs from the claimed one by 0.01, which does not exceed
    0.01, and yet the binary64 difference does and the creation is
    refused. *)
Lemma C6_total_check_counterexample :
  fst (forEach reserve [Shop.ribbons 1] (Shop.stall (num := float))) = inr tt
  /\ fst (createOrder 1000 (Shop.request [Shop.ribbons 1] 1%float) Shop.stall)
     = refused TotalMismatch
  /\ (Qabs (expectedTotal [Shop.ribbons 1] - 1) == 1 # 100)%Q
  /\ ~ (1 # 100 < Qabs (expectedTotal [Shop.ribbons 1] - 1))%Q.
Proof.
  split; [vm_compute; reflexivity|]. split; [vm_compute; reflexivity|].
  split; [reflexivity|]. intros Hlt. vm_compute in Hlt. discriminate.
Qed.

(** ** Input validation *)

Section Validation.
Context {num : Type} `{!JSNumber num}.
Implicit Types (db : Db num) (body : OrderBody.t num).

Lemma blank_true field : blank field = true <-> emptyAfterTrim field.
Proof.
  unfold emptyAfterTrim. destruct field as [s|]; simpl.
  - rewrite String.eqb_eq. split; [eauto|].
    intros [?|(s' & [= <-] & ?)]; done.
  - split; [auto | done].
Qed.

Lemma falsy_true field : falsy field = true <-> missing field.
Proof.
  unfold missing. destruct field as [s|]; simpl.
  - rewrite String.eqb_eq. split; [intros ->; auto|].
    intros [?|[= ->]]; done.
  - split; [auto | done].
Qed.

(** The bodies the middleware lets through are those that violate no
    precondition. *)
Lemma validateOrderInput_passes body :
  validateOrderInput body = None <-> ~ violation body.
Proof.
  unfold validateOrderInput, reject. split.
  - destruct (blank (OrderBody.username body)) eqn:Hu; [done|].
    destruct (blank (OrderBody.fullName body)) eqn:Hf; [done|].
    destruct (blank (OrderBody.email body)) eqn:He; [done|].
    destruct (blank (OrderBody.phone body)) eqn:Hp; [done|]. simpl.
    destruct (OrderBody.items body) as [[|item rest]|] eqn:Hi; [done| |done].
    destruct (OrderBody.totalAmount body) as [t|] eqn:Ht; [|done].
    destruct (num_truthy t) eqn:Htt; [|done]. simpl.
    destruct (num_leb t (num_of_Z 0)) eqn:Htl; [done|].
    destruct (OrderBody.address body) as [a|] eqn:Ha; [|done].
    destruct (falsy (Address.street a)) eqn:Ha1; [done|].
    destruct (falsy (Address.city a)) eqn:Ha2; [done|].
    destruct (falsy (Address.state a)) eqn:Ha3; [done|].
    destruct (falsy (Address.postalCode a)) eqn:Ha4; [done|]. simpl.
    destruct (OrderBody.paymentMethod body) as [m|] eqn:Hm; [|done].
    destruct (String.eqb m "Online" || String.eqb m "COD") eqn:Hpm; [|done].
    simpl.
    destruct (OrderBody.email body) as [e|] eqn:Hes; [|done].
    destruct (OrderBody.phone body) as [p|] eqn:Hps; [|done]. simpl.
    destruct (test emailRegex e) eqn:Hte; [|done].
    destruct (test phoneRegex p) eqn:Htp; [|done]. simpl. intros _.
    apply orb_true_iff in Hpm. rewrite !String.eqb_eq in Hpm.
    intros [Hv|s Hs Hv|s Hs Hv|Hv|Hv|Hv|Hv1 Hv2].
    + rewrite <- !blank_true in Hv. rewrite Hu, Hf, Hes, Hps, He, Hp in Hv.
      destruct Hv as [?|[?|[?|?]]]; done.
    + congruence.
    + congruence.
    + destruct Hv; congruence.
    + destruct Hv as [?|(t' & Heq & Hv)]; [congruence|].
      assert (t' = t) as -> by congruence. destruct Hv; congruence.
    + destruct Hv as [?|(a' & Heq & Hv)]; [congruence|].
      assert (a' = a) as -> by congruence.
      rewrite <- !falsy_true in Hv. destruct Hv as [?|[?|[?|?]]]; congruence.
    + destruct Hpm as [-> | ->]; congruence.
  - intros Hok.
    destruct (blank (OrderBody.username body)) eqn:Hu.
    { destruct Hok. apply violation_customer. rewrite <- !blank_true. auto. }
    destruct (blank (OrderBody.fullName body)) eqn:Hf.
    { destruct Hok. apply violation_customer. rewrite <- !blank_true. auto. }
    destruct (blank (OrderBody.email body)) eqn:He.
    { destruct Hok. apply violation_customer. rewrite <- !blank_true. auto. }
    destruct (blank (OrderBody.phone body)) eqn:Hp.
    { destruct Hok. apply violation_customer. rewrite <- !blank_true. auto. }
    simpl.
    destruct (OrderBody.items body) as [[|item rest]|] eqn:Hi.
    { destruct Hok. apply violation_items. auto. }
    2: { destruct Hok. apply violation_items. auto. }
    destruct (OrderBody.totalAmount body) as [t|] eqn:Ht.
    2: { destruct Hok. apply violation_total. auto. }
    destruct (num_truthy t) eqn:Htt; simpl.
    2: { destruct Hok. apply violation_total. eauto. }
    destruct (num_leb t (num_of_Z 0)) eqn:Htl.
    { destruct Hok. apply violation_total. eauto. }
    destruct (OrderBody.address body) as [a|] eqn:Ha.
    2: { destruct Hok. apply violation_address. auto. }
    destruct (falsy (Address.street a)) eqn:Ha1.
    { destruct Hok. apply violation_address. right. exists a.
      rewrite <- !falsy_true. auto. }
    destruct (falsy (Address.city a)) eqn:Ha2.
    { destruct Hok. apply violation_address. right. exists a.
      rewrite <- !falsy_true. auto. }
    destruct (falsy (Address.state a)) eqn:Ha3.
    { destruct Hok. apply violation_address. right. exists a.
      rewrite <- !falsy_true. auto. }
    destruct (falsy (Address.postalCode a)) eqn:Ha4.
    { destruct Hok. apply violation_address. right. exists a.
      rewrite <- !falsy_true. auto. }
    simpl.
    destruct (OrderBody.paymentMethod body) as [m|] eqn:Hm.
    2: { destruct Hok. apply violation_payment; congruence. }
    destruct (String.eqb m "Online" || String.eqb m "COD") eqn:Hpm.
    2: { destruct Hok. apply orb_false_iff in Hpm as [H1 H2].
         apply String.eqb_neq in H1, H2.
         apply violation_payment; congruence. }
    simpl.
    destruct (blank_false _ He) as [e Hes].
    destruct (blank_false _ Hp) as [p Hps]. rewrite Hes, Hps. simpl.
    destruct (test emailRegex e) eqn:Hte.
    2: { destruct Hok. by eapply violation_email. }
    destruct (test phoneRegex p) eqn:Htp.
    2: { destruct Hok. by eapply violation_phone. }
    done.
Qed.

(** Every answer of the middleware is a 400 with a message. *)
Lemma validateOrderInput_rejects body res :
  validateOrderInput body = Some res ->
  exists message, res = mkResponse 400 (Message message).
Proof.
  unfold validateOrderInput, reject. repeat case_match; intros [= <-]; eauto.
Qed.

(** C8. A creation request that violates a precondition (a customer field
    empty after trimming, an email or phone that does not match its
    pattern, no item, a totalAmount that is absent, zero or negative, an
    address lacking a part, a paymentMethod other than Online and COD) is
    answered 400 with a validation message, and the database, products
    and orders, is left untouched. *)
Theorem C8_invalid_input_changes_nothing now body db :
  violation body ->
  exists message,
    validateOrderInput body = Some (mkResponse 400 (Message message))
    /\ createOrder now body db = (mkResponse 400 (Message message), db).
Proof.
  intros Hv. unfold createOrder.
  destruct (validateOrderInput body) as [res|] eqn:Hres.
  - destruct (validateOrderInput_rejects _ _ Hres) as [message ->]. eauto.
  - apply validateOrderInput_passes in Hres. done.
Qed.

End Validation.

(** A request whose username is made of spaces only. *)
Lemma C8_invalid_input_changes_nothing_witness :
  let body : OrderBody.t Q :=
    OrderBody.mk (Some "   ") (Some "Bob B") (Some "bob@example.com")
      (Some "+91 98765-43210") (Some [Shop.frames 2]) (Some 180%Q)
      (Some Shop.home) (Some "COD") in
  exists message,
    validateOrderInput body = Some (mkResponse 400 (Message message))
    /\ createOrder 1000 body Shop.catalogue
       = (mkResponse 400 (Message message), Shop.catalogue).
Proof.
  intros body.
  apply (C8_invalid_input_changes_nothing 1000 body Shop.catalogue).
  apply violation_customer. left. right. exists "   ". split; reflexivity.
Defined.

(** ** What the patterns let through *)

Lemma dead_not_nullable r : dead r = true -> nullable r = false.
Proof.
  induction r; simpl; try done.
  - intros [H|H]%orb_true_iff.
    + by rewrite IHr1.
    + rewrite IHr2 by done. apply andb_false_r.
  - intros [H1 H2]%andb_true_iff. by rewrite IHr1, IHr2.
Qed.

Lemma dead_deriv c r : dead r = true -> dead (deriv c r) = true.
Proof.
  induction r; simpl; try done.
  - intros [H|H]%orb_true_iff.
    + rewrite (dead_not_nullable _ H). simpl. by rewrite IHr1.
    + destruct (nullable r1); simpl; rewrite ?H, ?IHr2 by done;
        by rewrite ?orb_true_r.
  - intros [H1 H2]%andb_true_iff. by rewrite IHr1, IHr2.
Qed.

Lemma dead_test r s : dead r = true -> test r s = false.
Proof.
  revert r. induction s as [|c s IH]; intros r Hr; simpl.
  - by apply dead_not_nullable.
  - by apply IH, dead_deriv.
Qed.

Lemma within_deriv P c r : within P r -> within P (deriv c r).
Proof.
  induction r; simpl; try done.
  - intros _. by case_match.
  - intros [H1 H2]. case_match; simpl; auto.
  - intros [H1 H2]. auto.
  - intros Hr. auto.
Qed.

(** A character outside every class of the pattern kills it. *)
Lemma outside_dead (P : ascii -> Prop) c r :
  within P r -> ~ P c -> dead (deriv c r) = true.
Proof.
  intros Hr Hc. induction r; simpl in *; try done.
  - destruct (b c) eqn:Hb; [|done]. destruct Hc. auto.
  - destruct Hr as [H1 H2]. case_match; simpl.
    + by rewrite IHr1, IHr2.
    + by rewrite IHr1.
  - destruct Hr as [H1 H2]. by rewrite IHr1, IHr2.
  - by rewrite IHr.
Qed.

Lemma within_spaceless r s :
  within (fun c => isSpace c = false) r -> test r s = true -> spaceless s.
Proof.
  revert r. induction s as [|c s IH]; intros r Hr Ht; simpl; [done|].
  simpl in Ht. split.
  - destruct (isSpace c) eqn:Hc; [|done].
    rewrite dead_test in Ht; [done|].
    eapply outside_dead; [exact Hr|]. simpl. congruence.
  - eapply IH; [|exact Ht]. by apply within_deriv.
Qed.

(** An address the email pattern accepts holds no white space. *)
Lemma emailRegex_spaceless s : test emailRegex s = true -> spaceless s.
Proof.
  apply within_spaceless. unfold emailRegex, Plus, Chr. cbn [within].
  assert (forall c, notSpaceAt c = true -> isSpace c = false) as H1.
  { intros c Hc. unfold notSpaceAt in Hc.
    apply negb_true_iff, orb_false_iff in Hc. tauto. }
  repeat split; intros c Hc;
    first [ by apply H1 | apply Ascii.eqb_eq in Hc; by subst ].
Qed.

Lemma rev_app_rev_app s1 s2 s3 :
  String.rev_app (String.rev_app s1 s2) s3 = String.rev_app s2 (s1 +:+ s3).
Proof.
  revert s2. induction s1 as [|a s1 IH]; intros s2; simpl; [done|].
  by rewrite IH.
Qed.

Lemma rev_app_spaceless s1 s2 :
  spaceless s1 -> spaceless s2 -> spaceless (String.rev_app s1 s2).
Proof.
  revert s2. induction s1 as [|a s1 IH]; intros s2; simpl; [done|].
  intros [Ha Hs1] Hs2. apply IH; simpl; auto.
Qed.

Lemma trimStart_spaceless s : spaceless s -> trimStart s = s.
Proof. destruct s as [|c s]; simpl; [done|]. by intros [-> _]. Qed.

(** Trimming a string without white space changes nothing. *)
Lemma trim_spaceless s : spaceless s -> trim s = s.
Proof.
  intros Hs. unfold trim, String.rev.
  rewrite (trimStart_spaceless s Hs).
  rewrite trimStart_spaceless by (by apply rev_app_spaceless).
  rewrite rev_app_rev_app. simpl.
  clear. induction s as [|a s IH]; [done|].
  change (String a (s +:+ "") = String a s). by f_equal.
Qed.

(** ** Reading a created order back *)

Section RoundTrip.
Context {num : Type} `{!JSNumber num}.
Implicit Types (db : Db num) (body : OrderBody.t num).

(** C9, as the code has it.  The order a successful creation saves is
    found under the id the response carries; its items, address and
    paymentMethod are the submitted ones and its status is Pending, while
    username, fullName and phone are the submitted values trimmed and the
    email is the submitted one in lower case. *)
Theorem C9_round_trip_normalised now body db res db' :
  createOrder now body db = (res, db') ->
  code res = 201 ->
  exists orderId username fullName email phone items order,
    json res
    = OrderCreated "Order created successfully" orderId (estimate now)
    /\ OrderBody.username body = Some username
    /\ OrderBody.fullName body = Some fullName
    /\ OrderBody.email body = Some email
    /\ OrderBody.phone body = Some phone
    /\ OrderBody.items body = Some items
    /\ orders db' !! orderId = Some order
    /\ Order.items order = items
    /\ Order.username order = trim username
    /\ Order.fullName order = trim fullName
    /\ Order.email order = toLowerCase email
    /\ Order.phone order = trim phone
    /\ Order.address order = OrderBody.address body
    /\ Order.paymentMethod order = OrderBody.paymentMethod body
    /\ Order.status order = Pending.
Proof.
  intros Hrun Hcode.
  apply createOrder_created in Hrun
    as (items & db1 & Hv & Hitems & _ & _ & -> & ->); [|done].
  destruct (validateOrderInput_fields _ Hv)
    as ([u Hu] & [f Hf] & [e He] & [p Hp] & _).
  exists (fresh (dom (orders db1))), u, f, e, p, items,
    (orderOf now body items).
  simpl. rewrite lookup_insert_eq, Hu, Hf, He, Hp. simpl.
  repeat split; try done.
  rewrite trim_spaceless; [done|]. apply emailRegex_spaceless.
  destruct (test emailRegex e) eqn:Hte; [done|].
  apply validateOrderInput_passes in Hv. destruct Hv.
  by eapply violation_email.
Qed.

End RoundTrip.

(** Two frames ordered by " bob " at "Bob@Example.com". *)
Lemma C9_round_trip_normalised_witness :
  let out :=
    createOrder 1000 (Shop.request [Shop.frames 2] 180%Q) Shop.catalogue in
  exists orderId order,
    json (fst out)
    = OrderCreated "Order created successfully" orderId (estimate 1000)
    /\ orders (snd out) !! orderId = Some order
    /\ Order.username order = "bob"
    /\ Order.email order = "bob@example.com"
    /\ Order.status order = Pending.
Proof.
  intros out.
  destruct (C9_round_trip_normalised 1000
              (Shop.request [Shop.frames 2] 180%Q) Shop.catalogue
              (fst out) (snd out))
    as (orderId & u & f & e & p & items & order & Hres & Hu & _ & He & _ & _
        & Ho & _ & Hou & _ & Hoe & _ & _ & _ & Hst).
  - apply surjective_pairing.
  - vm_compute. reflexivity.
  - exists orderId, order. injection Hu as <-. injection He as <-.
    repeat split; try done.
Defined.

(** C9 as stated fails: the order read back after a successful creation
    has username "bob" and email "bob@example.com" where " bob " and
    "Bob@Example.com" were submitted. *)
Lemma C9_round_trip_counterexample :
  let body := Shop.request [Shop.frames 2] 180%Q in
  let out := createOrder 1000 body Shop.catalogue in
  fst out
  = mkResponse 201 (OrderCreated "Order created successfully" 0%N 432001000)
  /\ exists order : Order.t Q,
       orders (snd out) !! 0%N = Some order
       /\ Some (Order.username order) <> OrderBody.username body
       /\ Some (Order.email order) <> OrderBody.email body.
Proof.
  split; [vm_compute; reflexivity|].
  eexists. split; [vm_compute; reflexivity|]. split; discriminate.
Qed.

(** ** Item quantities that are not positive *)

Section Quantities.
Context {num : Type} `{!JSNumber num}.
Implicit Types (db : Db num) (item : Item.t num) (body : OrderBody.t num).

(** C10. Order creation never looks at the sign of an item quantity: the
    middleware answers the same whatever the quantities of the cart are;
    an item of quantity 0 for an Available product with matching price and
    offer passes every reservation check and leaves the stock as it was;
    and an item of negative quantity passes the stock check and its
    decrement raises the stock (stock and quantity being in the range
    where the program's arithmetic is exact). *)
Theorem C10_quantities_unchecked :
  (forall body items quantity,
      OrderBody.items body = Some items ->
      validateOrderInput (withItems body (requantify quantity items))
      = validateOrderInput body)
  /\ (forall item db product,
        products db !! Item._id item = Some product ->
        Product.status product = Available ->
        num_eqb (Product.price product) (Item.price item) = true ->
        num_eqb (Product.offer product) (Item.offer item) = true ->
        0 <= Product.quantity product ->
        Item.quantity item <= 0 ->
        exactStock db [item] ->
        exists db1 product1,
          reserve item db = (inr tt, db1)
          /\ products db1 !! Item._id item = Some product1
          /\ (Item.quantity item = 0 ->
              Product.quantity product1 = Product.quantity product)
          /\ (Item.quantity item < 0 ->
              Product.quantity product < Product.quantity product1)).
Proof.
  split.
  - intros body items quantity Hitems.
    unfold validateOrderInput, withItems. simpl. rewrite Hitems.
    by destruct items.
  - intros item db product Hl Hs Hp Ho Hq Hi _.
    rewrite reserve_unfold, Hl, Hp, Ho.
    rewrite bool_decide_eq_true_2 by done. simpl.
    assert ((Product.quantity product <? Item.quantity item) = false) as ->
      by (apply Z.ltb_ge; lia).
    eexists _, _. split; [done|]. simpl. rewrite lookup_insert_eq.
    split; [done|]. simpl. split; lia.
Qed.

End Quantities.

(** A line of minus two frames raises the five frames to seven. *)
Lemma C10_quantities_unchecked_witness :
  exists (db1 : Db Q) product1,
    reserve (Shop.frames (-2)) Shop.catalogue = (inr tt, db1)
    /\ products db1 !! 1%N = Some product1
    /\ (-2 = 0 -> Product.quantity product1 = 5)
    /\ (-2 < 0 -> 5 < Product.quantity product1).
Proof.
  apply (proj2 C10_quantities_unchecked (Shop.frames (-2)) Shop.catalogue
           (Shop.frame 5 Available)).
  - reflexivity.
  - reflexivity.
  - reflexivity.
  - reflexivity.
  - simpl. lia.
  - simpl. lia.
  - apply exactStock_check. vm_compute. reflexivity.
Defined.

(** C10 as stated, for every stock, fails in the numbers of the program:
    on a stock of 2^53 a line of -1 passes the stock check and its
    decrement leaves the stock at 2^53, no higher. *)
Lemma C10_quantities_unchecked_counterexample :
  decrementQuantity (float_of_Z (2 ^ 53)) (float_of_Z (-1))
  = Some (float_of_Z (2 ^ 53))
  /\ float_of_Z (2 ^ 53) = 9007199254740992%float
  /\ float_of_Z (-1) = (-1)%float.
Proof. repeat split; vm_compute; reflexivity. Qed.

(** ** What order creation leaves alone *)

Section CreationFrame.
Context {num : Type} `{!JSNumber num}.
Implicit Types (db : Db num) (item : Item.t num) (items : list (Item.t num)).
Implicit Types (body : OrderBody.t num) (p : Product.t num).

Lemma sameListing_refl p : sameListing p p.
Proof. by repeat split. Qed.

Lemma sameListing_trans p1 p2 p3 :
  sameListing p1 p2 -> sameListing p2 p3 -> sameListing p1 p3.
Proof.
  intros (?&?&?&?&?) (?&?&?&?&?). repeat split; congruence.
Qed.

Lemma sameListing_restock p quantity status :
  sameListing p (Product.restock p quantity status).
Proof. by repeat split. Qed.

(** Products that agree on listing, quantity and status are one. *)
Lemma sameListing_eq p p' :
  sameListing p p' ->
  Product.quantity p' = Product.quantity p ->
  Product.status p' = Product.status p ->
  p' = p.
Proof.
  destruct p, p'. simpl. intros (?&?&?&?&?) ? ?. simpl in *. congruence.
Qed.

Lemma forEach_app {A} (f : A -> Try unit) l1 l2 db :
  forEach f (l1 ++ l2) db =
  match forEach f l1 db with
  | (inl error, db') => (inl error, db')
  | (inr _, db') => forEach f l2 db'
  end.
Proof.
  revert db. induction l1 as [|x l1 IH]; intros db; [done|].
  simpl app. rewrite !forEach_cons. destruct (f x db) as [[e|[]] db']; [done|].
  apply IH.
Qed.

Lemma ordered_app id items1 items2 :
  ordered id (items1 ++ items2) = ordered id items1 + ordered id items2.
Proof. induction items1 as [|item rest IH]; simpl; lia. Qed.

(** The reservation loop, however it ends, changes quantity and status
    only. *)
Lemma reserveAll_listing items db outcome db1 id p :
  forEach reserve items db = (outcome, db1) ->
  products db !! id = Some p ->
  exists p1, products db1 !! id = Some p1 /\ sameListing p p1.
Proof.
  revert db p. induction items as [|item rest IH]; intros db p.
  - intros [= _ <-] Hp. eauto using sameListing_refl.
  - rewrite forEach_cons.
    destruct (reserve item db) as [[e|[]] db2] eqn:Hr.
    + apply reserve_error in Hr as ->. intros [= _ <-] Hp.
      eauto using sameListing_refl.
    + intros Hrest Hp.
      apply reserve_ok in Hr as (p0 & Hl & _ & _ & _ & _ & ->).
      destruct (decide (Item._id item = id)) as [<-|Hne].
      * assert (p0 = p) as -> by congruence.
        destruct (IH _ (decremented p item) Hrest) as (p1 & Hp1 & Hs).
        { simpl. by rewrite lookup_insert_eq. }
        exists p1. split; [done|].
        eapply sameListing_trans; [|exact Hs]. apply sameListing_restock.
      * apply (IH _ p Hrest). simpl. by rewrite lookup_insert_ne.
Qed.

Lemma restoreAll_listing items db id p :
  products db !! id = Some p ->
  exists p', products (fold_left restore items db) !! id = Some p'
             /\ sameListing p p'.
Proof.
  revert db p. induction items as [|item rest IH]; intros db p Hp; simpl.
  - eauto using sameListing_refl.
  - pose proof (restore_lookup db item id) as Hstep. rewrite Hp in Hstep.
    simpl in Hstep.
    destruct (IH _ _ Hstep) as (p' & Hp' & Hs). exists p'. split; [done|].
    eapply sameListing_trans; [|exact Hs].
    case_decide; [apply sameListing_restock | apply sameListing_refl].
Qed.

(** Every product a completed reservation touched was Available, at the
    price and offer of the cart line, when the call began. *)
Lemma reserveAll_purchasable items db db1 item :
  forEach reserve items db = (inr tt, db1) ->
  item ∈ items ->
  exists p,
    products db !! Item._id item = Some p
    /\ Product.status p = Available
    /\ num_eqb (Product.price p) (Item.price item) = true
    /\ num_eqb (Product.offer p) (Item.offer item) = true.
Proof.
  revert db item. induction items as [|item0 rest IH]; intros db item.
  - intros _ Hin. by apply elem_of_nil in Hin.
  - rewrite forEach_cons.
    destruct (reserve item0 db) as [[e|[]] db2] eqn:Hr; [done|].
    intros Hrest Hin.
    apply reserve_ok in Hr as (p0 & Hl & Hs & Hq & Hp & Ho & ->).
    apply elem_of_cons in Hin as [->|Hin]; [by exists p0|].
    destruct (IH _ _ Hrest Hin) as (p2 & Hl2 & Hs2 & Hp2 & Ho2).
    simpl in Hl2. rewrite lookup_insert in Hl2.
    destruct (decide (Item._id item0 = Item._id item)) as [Heq|Hne].
    + injection Hl2 as <-. exists p0. rewrite <- Heq. split; [done|].
      split; [|done]. unfold decremented in Hs2. simpl in Hs2.
      by destruct (Product.quantity p0 - Item.quantity item0 =? 0).
    + by exists p2.
Qed.

(** A product the compensation loop leaves with a positive stock is left
    Available. *)
Lemma restoreAll_status items db id p' :
  id ∈ map Item._id items ->
  products (fold_left restore items db) !! id = Some p' ->
  0 < Product.quantity p' ->
  Product.status p' = Available.
Proof.
  revert db. induction items as [|item rest IH]; intros db Hin Hp' Hq; simpl.
  - by apply elem_of_nil in Hin.
  - simpl in Hp'.
    destruct (decide (id ∈ map Item._id rest)) as [Hlater|Hlast].
    + by eapply IH.
    + rewrite restoreAll_untouched, restore_lookup in Hp' by done.
      apply elem_of_cons in Hin as [->|Hin]; [|done].
      destruct (products db !! Item._id item) as [p|]; [|done].
      simpl in Hp'. rewrite decide_True in Hp' by done.
      injection Hp' as <-. simpl in *.
      apply Z.ltb_lt in Hq. by rewrite Hq.
Qed.

End CreationFrame.

(** ** Outcomes of order creation *)

Section CreationOutcomes.
Context {num : Type} `{!JSNumber num}.
Implicit Types (db : Db num) (item : Item.t num) (items : list (Item.t num)).
Implicit Types (body : OrderBody.t num) (p : Product.t num).

(** The handler either answers with the middleware's 400, or runs the
    reservation loop over the cart and ends in one of three ways. *)
Lemma createOrder_outcomes now body db :
  (exists res,
      validateOrderInput body = Some res /\ code res = 400
      /\ createOrder now body db = (res, db))
  \/ (exists items outcome db1,
        OrderBody.items body = Some items
        /\ forEach reserve items db = (outcome, db1)
        /\ (createOrder now body db
            = (mkResponse 201
                 (OrderCreated "Order created successfully"
                    (fresh (dom (orders db1))) (estimate now)),
               mkDb (products db1)
                 (<[fresh (dom (orders db1)) := orderOf now body items]>
                    (orders db1)))
            /\ outcome = inr tt
            \/ exists error,
                createOrder now body db
                = (refused error, fold_left restore items db1))).
Proof.
  destruct (validateOrderInput body) as [res|] eqn:Hv.
  - left. exists res. destruct (validateOrderInput_rejects _ _ Hv) as [m ->].
    unfold createOrder. by rewrite Hv.
  - right. destruct (validateOrderInput_fields _ Hv)
      as (_ & _ & _ & _ & item & rest & Hitems).
    rewrite (createOrder_validated _ _ _ _ Hv Hitems).
    destruct (forEach reserve (item :: rest) db) as [[error|[]] db1] eqn:Hr.
    + exists (item :: rest), (inl error), db1. eauto.
    + exists (item :: rest), (inr tt), db1.
      destruct (totalMismatch _ _); eauto.
Qed.

(** X1. A creation that is not answered 201 is answered 400 and saves no
    order: the order collection is as before the call. *)
Theorem createOrder_refusal_saves_no_order now body db res db' :
  createOrder now body db = (res, db') ->
  code res <> 201 ->
  code res = 400 /\ orders db' = orders db.
Proof.
  intros Hrun Hcode.
  destruct (createOrder_outcomes now body db)
    as [(res0 & _ & H400 & Heq)
       |(items & outcome & db1 & _ & Hr & [[Heq _]|[error Heq]])];
    rewrite Heq in Hrun; injection Hrun as <- <-; try done.
  split; [done|].
  by rewrite restoreAll_orders, (reserveAll_orders _ _ _ _ Hr).
Qed.

(** X2. A creation answered 201 saves the new order under the id its
    answer carries and changes no order stored under another id; the new
    order is Pending and has neither tracking number nor notes. *)
Theorem createOrder_saves_one_order now body db res db' :
  createOrder now body db = (res, db') ->
  code res = 201 ->
  exists id estimated order,
    json res = OrderCreated "Order created successfully" id estimated
    /\ orders db' !! id = Some order
    /\ (forall id', id' <> id -> orders db' !! id' = orders db !! id')
    /\ Order.status order = Pending
    /\ Order.trackingNumber order = None
    /\ Order.notes order = None.
Proof.
  intros Hrun Hcode.
  apply createOrder_created in Hrun
    as (items & db1 & _ & _ & Hr & _ & -> & ->); [|done].
  pose proof (reserveAll_orders _ _ _ _ Hr) as Ho. simpl.
  exists (fresh (dom (orders db1))), (estimate now), (orderOf now body items).
  rewrite lookup_insert_eq. repeat split; try done.
  intros id' Hne. rewrite lookup_insert_ne by done. by rewrite Ho.
Qed.

(** X3. However a creation ends, it neither adds nor removes a product,
    it changes no product's name, price, image, category or offer, and it
    leaves a product no cart line names exactly as it was. *)
Theorem createOrder_product_frame now body db pid :
  match products db !! pid with
  | Some p =>
      exists p',
        products (snd (createOrder now body db)) !! pid = Some p'
        /\ sameListing p p'
        /\ (pid ∉ cartIds body -> p' = p)
  | None => products (snd (createOrder now body db)) !! pid = None
  end.
Proof.
  destruct (createOrder_outcomes now body db)
    as [(res0 & _ & _ & Heq)
       |(items & outcome & db1 & Hitems & Hr & [[Heq _]|[error Heq]])];
    rewrite Heq; simpl; unfold cartIds; rewrite ?Hitems; simpl.
  - destruct (products db !! pid) as [p|]; [|done].
    exists p. eauto using sameListing_refl.
  - destruct (products db !! pid) as [p|] eqn:Hp.
    + destruct (reserveAll_listing _ _ _ _ _ _ Hr Hp) as (p1 & Hp1 & Hs).
      exists p1. repeat split; try done; try apply Hs.
      intros Hout. rewrite (reserveAll_untouched _ _ _ _ _ Hr Hout) in Hp1.
      congruence.
    + by apply (reserveAll_absent _ _ _ _ _ Hr).
  - destruct (products db !! pid) as [p|] eqn:Hp.
    + destruct (reserveAll_listing _ _ _ _ _ _ Hr Hp) as (p1 & Hp1 & Hs).
      destruct (restoreAll_listing items _ _ _ Hp1) as (p' & Hp' & Hs').
      exists p'. split; [done|]. split.
      * by eapply sameListing_trans.
      * intros Hout. rewrite restoreAll_untouched in Hp' by done.
        rewrite (reserveAll_untouched _ _ _ _ _ Hr Hout) in Hp'. congruence.
    + apply restoreAll_absent. by apply (reserveAll_absent _ _ _ _ _ Hr).
Qed.

(** X4. A cart is accepted only if it could be bought as submitted: on a
    201 answer, with stock and cart quantities in the range where the
    program's arithmetic is exact, every cart line names a stored product
    that was Available at the line's price and offer, with a stock of at
    least the quantity the cart orders of it, and the claimed total
    passed the check. *)
Theorem createOrder_accepts_purchasable_carts now body db res db' items item :
  createOrder now body db = (res, db') ->
  code res = 201 ->
  OrderBody.items body = Some items ->
  exactStock db items ->
  item ∈ items ->
  totalMismatch (calculatedTotal items) (OrderBody.totalAmount body) = false
  /\ exists p,
       products db !! Item._id item = Some p
       /\ Product.status p = Available
       /\ num_eqb (Product.price p) (Item.price item) = true
       /\ num_eqb (Product.offer p) (Item.offer item) = true
       /\ ordered (Item._id item) items <= Product.quantity p.
Proof.
  intros Hrun Hcode Hitems _ Hin.
  apply createOrder_created in Hrun
    as (items' & db1 & _ & Hitems' & Hr & Ht & _ & _); [|done].
  assert (items' = items) as -> by congruence. split; [done|].
  destruct (reserveAll_purchasable _ _ _ _ Hr Hin) as (p & Hp & Hs & Hpr & Ho).
  exists p. repeat split; try done.
  destruct (reserveAll_quantity _ _ _ _ _ Hr Hp) as (p1 & Hp1 & Hq1).
  destruct (reserveAll_referenced _ _ _ _ Hr Hin) as (p1' & Hp1' & Hpos & _).
  assert (p1' = p1) as -> by congruence. lia.
Qed.

(** X5. When every line was reserved and the total is then found wrong,
    with stock and cart quantities in the range where the program's
    arithmetic is exact, the compensation gives every product its
    quantity back, and a product that had a positive stock is again
    exactly as it was; no order is saved. *)
Theorem createOrder_total_mismatch_restores now body db items db1 :
  validateOrderInput body = None ->
  OrderBody.items body = Some items ->
  exactStock db items ->
  forEach reserve items db = (inr tt, db1) ->
  totalMismatch (calculatedTotal items) (OrderBody.totalAmount body) = true ->
  fst (createOrder now body db) = refused TotalMismatch
  /\ orders (snd (createOrder now body db)) = orders db
  /\ forall pid p,
       products db !! pid = Some p ->
       exists p',
         products (snd (createOrder now body db)) !! pid = Some p'
         /\ Product.quantity p' = Product.quantity p
         /\ sameListing p p'
         /\ (0 < Product.quantity p -> p' = p).
Proof.
  intros Hv Hitems _ Hr Ht.
  rewrite (createOrder_validated _ _ _ _ Hv Hitems), Hr, Ht. simpl.
  split; [done|]. split.
  { by rewrite restoreAll_orders, (reserveAll_orders _ _ _ _ Hr). }
  intros pid p Hp.
  destruct (reserveAll_quantity _ _ _ _ _ Hr Hp) as (p1 & Hp1 & Hq1).
  destruct (reserveAll_listing _ _ _ _ _ _ Hr Hp) as (p1' & Hp1' & Hs1).
  assert (p1' = p1) as -> by congruence.
  destruct (restoreAll_quantity items _ _ _ Hp1) as (p' & Hp' & Hq').
  destruct (restoreAll_listing items _ _ _ Hp1) as (p'' & Hp'' & Hs').
  assert (p'' = p') as -> by congruence.
  assert (sameListing p p') as Hs by (by eapply sameListing_trans).
  exists p'. repeat split; try done; try apply Hs; [lia|].
  intros Hpos.
  destruct (decide (pid ∈ map Item._id items)) as [Hin|Hout].
  - apply sameListing_eq; [done | lia |].
    rewrite (restoreAll_status items db1 pid p') by (done || lia).
    apply list_elem_of_fmap in Hin as (item & -> & Hin).
    destruct (reserveAll_purchasable _ _ _ _ Hr Hin) as (p0 & Hp0 & Hs0 & _).
    congruence.
  - rewrite restoreAll_untouched in Hp' by done.
    rewrite (reserveAll_untouched _ _ _ _ _ Hr Hout) in Hp'. congruence.
Qed.

(** X6. When the reservation stops at a line, the lines before it having
    been reserved, the compensation runs over the whole cart: with stock
    and cart quantities in the range where the program's arithmetic is
    exact, every product ends with its quantity before the call plus the
    quantity ordered of it by the refused line and the lines after it,
    which had taken nothing. *)
Theorem createOrder_compensates_whole_cart now body db
    (taken : list (Item.t num)) item later db1 error :
  validateOrderInput body = None ->
  OrderBody.items body = Some (taken ++ item :: later)%list ->
  exactStock db (taken ++ item :: later)%list ->
  forEach reserve taken db = (inr tt, db1) ->
  fst (reserve item db1) = inl error ->
  fst (createOrder now body db) = refused error
  /\ forall pid p,
       products db !! pid = Some p ->
       exists p',
         products (snd (createOrder now body db)) !! pid = Some p'
         /\ Product.quantity p'
            = Product.quantity p + ordered pid (item :: later).
Proof.
  intros Hv Hitems _ Hr Herr.
  rewrite (createOrder_validated _ _ _ _ Hv Hitems).
  rewrite forEach_app, Hr, forEach_cons.
  destruct (reserve item db1) as [[e|[]] db2] eqn:Hri; [|done].
  simpl in Herr. injection Herr as ->.
  apply reserve_error in Hri as ->. simpl. split; [done|].
  intros pid p Hp.
  destruct (reserveAll_quantity _ _ _ _ _ Hr Hp) as (p1 & Hp1 & Hq1).
  destruct (restoreAll_quantity (taken ++ item :: later)%list _ _ _ Hp1)
    as (p' & Hp' & Hq').
  exists p'. split; [done|]. rewrite Hq', Hq1, ordered_app. simpl. lia.
Qed.

End CreationOutcomes.

Section UnavailableProduct.
Context {num : Type} `{!JSNumber num}.
Implicit Types (db : Db num) (item : Item.t num) (body : OrderBody.t num).

(** X17. A cart whose first line names a product that is not Available
    is refused with the not-available message, and the compensation that
    follows still adds the cart's quantities to that product: with stock
    and cart quantities in the range where the program's arithmetic is
    exact, when the sum is positive the product is saved as Available
    with that quantity. *)
Theorem createOrder_refusal_restocks_unavailable now body db item later p :
  validateOrderInput body = None ->
  OrderBody.items body = Some (item :: later) ->
  exactStock db (item :: later) ->
  products db !! Item._id item = Some p ->
  Product.status p = NotAvailable ->
  0 < Product.quantity p + ordered (Item._id item) (item :: later) ->
  fst (createOrder now body db) = refused (ProductUnavailable (Item.name item))
  /\ exists p',
       products (snd (createOrder now body db)) !! Item._id item = Some p'
       /\ Product.status p' = Available
       /\ Product.quantity p'
          = Product.quantity p + ordered (Item._id item) (item :: later).
Proof.
  intros Hv Hitems _ Hp Hs Hq.
  rewrite (createOrder_validated _ _ _ _ Hv Hitems).
  rewrite forEach_cons, reserve_unfold, Hp.
  rewrite bool_decide_eq_false_2 by congruence. simpl negb. cbv iota.
  split; [done|]. cbn [snd].
  destruct (restoreAll_quantity (item :: later) db _ _ Hp) as (p' & Hp' & Hq').
  exists p'. split; [done|]. split; [|done].
  apply (restoreAll_status (item :: later) db (Item._id item)).
  - left.
  - done.
  - lia.
Qed.

End UnavailableProduct.

(** ** Outcomes of a status update *)

Section UpdateOutcomes.
Context {num : Type} `{!JSNumber num}.
Implicit Types (db : Db num) (item : Item.t num) (items : list (Item.t num)).
Implicit Types (order : Order.t num) (body : StatusBody.t).

(** The target status names the handler accepts. *)
Lemma parseStatus_Some status target :
  parseStatus status = Some target <->
  match target with
  | Pending => status = "Pending"
  | Processing => status = "Processing"
  | Shipped => status = "Shipped"
  | Delivered => status = "Delivered"
  | Cancelled => status = "Cancelled"
  end.
Proof.
  unfold parseStatus. split.
  - repeat (case_match; [intros [= <-]; by apply String.eqb_eq|]). done.
  - by destruct target; intros ->.
Qed.

(** An update answered 200 found the order, not Cancelled, and saved it
    again with its new status. *)
Lemma updateOrderStatus_done now id body db res db' :
  updateOrderStatus now id body db = (res, db') ->
  code res = 200 ->
  exists target order order',
    StatusBody.status body ≫= parseStatus = Some target
    /\ orders db !! id = Some order
    /\ Order.status order <> Cancelled
    /\ res = mkResponse 200
               (OrderUpdated "Order status updated successfully" order')
    /\ order'
       = Order.mk (Order.username order) (Order.fullName order)
           (Order.email order) (Order.phone order) (Order.items order)
           (Order.totalAmount order) (Order.address order)
           (Order.paymentMethod order)
           (if bool_decide (target = Delivered) then now
            else Order.deliveryDate order)
           target (Order.orderDate order)
           (overwrite (StatusBody.trackingNumber body)
              (Order.trackingNumber order))
           (overwrite (StatusBody.notes body) (Order.notes order))
    /\ db' = mkDb
               (products
                  (if bool_decide (target = Cancelled)
                   then fold_left cancelRestore (Order.items order) db
                   else db))
               (<[id := order']> (orders db)).
Proof.
  unfold updateOrderStatus.
  destruct (StatusBody.status body ≫= parseStatus) as [target|];
    [|by intros [= <- <-]].
  destruct (orders db !! id) as [order|]; [|by intros [= <- <-]].
  destruct (bool_decide (Order.status order = Cancelled)) eqn:Hs;
    [by intros [= <- <-]|].
  apply bool_decide_eq_false in Hs. simpl. rewrite andb_true_r.
  intros [= <- <-] _. eexists target, order, _.
  repeat split; try done.
  case_bool_decide; [|done]. by rewrite cancelAll_orders.
Qed.

(** An update that is not answered 200 leaves the database as it was. *)
Lemma updateOrderStatus_not_done now id body db res db' :
  updateOrderStatus now id body db = (res, db') ->
  code res <> 200 ->
  db' = db.
Proof.
  unfold updateOrderStatus.
  destruct (StatusBody.status body ≫= parseStatus) as [target|];
    [|by intros [= <- <-]].
  destruct (orders db !! id) as [order|]; [|by intros [= <- <-]].
  destruct (bool_decide (Order.status order = Cancelled));
    by intros [= <- <-].
Qed.

(** X7. A status update that is not answered 200 changes nothing, and
    its answer is the first that applies of: 400 for a status outside the
    five names, whether or not the order exists; 404 for an unknown order
    id; 400 for an order that is Cancelled. *)
Theorem updateOrderStatus_failure_changes_nothing now id body db res db' :
  updateOrderStatus now id body db = (res, db') ->
  code res <> 200 ->
  db' = db
  /\ (StatusBody.status body ≫= parseStatus = None
      /\ res = mkResponse 400 (Message "Invalid order status")
      \/ is_Some (StatusBody.status body ≫= parseStatus)
         /\ orders db !! id = None
         /\ res = mkResponse 404 (Message "Order not found")
      \/ is_Some (StatusBody.status body ≫= parseStatus)
         /\ (exists order,
               orders db !! id = Some order
               /\ Order.status order = Cancelled)
         /\ res = mkResponse 400
                    (Message "Cannot update status of cancelled order")).
Proof.
  unfold updateOrderStatus.
  destruct (StatusBody.status body ≫= parseStatus) as [target|];
    [|intros [= <- <-]; auto].
  destruct (orders db !! id) as [order|];
    [|intros [= <- <-]; eauto 10].
  destruct (bool_decide (Order.status order = Cancelled)) eqn:Hs.
  - apply bool_decide_eq_true in Hs. intros [= <- <-]. eauto 10.
  - by intros [= <- <-].
Qed.

(** X8. A status update answered 200 rewrites one order and nothing else
    in the order collection: the order keeps its customer fields, items,
    total, address, payment method and order date, takes the requested
    status, and has its delivery date set to [now] exactly when the new
    status is Delivered; unless the new status is Cancelled no product
    changes. *)
Theorem updateOrderStatus_rewrites_one_order now id body db res db' :
  updateOrderStatus now id body db = (res, db') ->
  code res = 200 ->
  exists target order order',
    StatusBody.status body ≫= parseStatus = Some target
    /\ orders db !! id = Some order
    /\ json res = OrderUpdated "Order status updated successfully" order'
    /\ orders db' = <[id := order']> (orders db)
    /\ (forall id', id' <> id -> orders db' !! id' = orders db !! id')
    /\ Order.status order' = target
    /\ Order.username order' = Order.username order
    /\ Order.fullName order' = Order.fullName order
    /\ Order.email order' = Order.email order
    /\ Order.phone order' = Order.phone order
    /\ Order.items order' = Order.items order
    /\ Order.totalAmount order' = Order.totalAmount order
    /\ Order.address order' = Order.address order
    /\ Order.paymentMethod order' = Order.paymentMethod order
    /\ Order.orderDate order' = Order.orderDate order
    /\ (target = Delivered -> Order.deliveryDate order' = now)
    /\ (target <> Delivered ->
        Order.deliveryDate order' = Order.deliveryDate order)
    /\ (target <> Cancelled -> products db' = products db).
Proof.
  intros Hrun Hcode.
  destruct (updateOrderStatus_done _ _ _ _ _ _ Hrun Hcode)
    as (target & order & order' & Ht & Ho & _ & -> & -> & ->).
  exists target, order. eexists. simpl.
  repeat split; try done.
  - intros id' Hne. by rewrite lookup_insert_ne.
  - intros ->. by rewrite bool_decide_eq_true_2.
  - intros Hne. by rewrite bool_decide_eq_false_2.
  - intros Hne. by rewrite bool_decide_eq_false_2.
Qed.

(** X9. On a status update answered 200, a tracking number or a note that
    is supplied and not the empty string is stored trimmed, so that one
    made of spaces only is stored as the empty string; one that is absent
    or the empty string leaves the stored value as it was. *)
Theorem updateOrderStatus_tracking_and_notes now id body db res db' order :
  updateOrderStatus now id body db = (res, db') ->
  code res = 200 ->
  orders db !! id = Some order ->
  exists order',
    orders db' !! id = Some order'
    /\ (forall s,
          StatusBody.trackingNumber body = Some s -> s <> "" ->
          Order.trackingNumber order' = Some (trim s))
    /\ (StatusBody.trackingNumber body = None
        \/ StatusBody.trackingNumber body = Some "" ->
        Order.trackingNumber order' = Order.trackingNumber order)
    /\ (forall s,
          StatusBody.notes body = Some s -> s <> "" ->
          Order.notes order' = Some (trim s))
    /\ (StatusBody.notes body = None \/ StatusBody.notes body = Some "" ->
        Order.notes order' = Order.notes order).
Proof.
  intros Hrun Hcode Ho.
  destruct (updateOrderStatus_done _ _ _ _ _ _ Hrun Hcode)
    as (target & order0 & order' & _ & Ho0 & _ & _ & -> & ->).
  assert (order0 = order) as -> by congruence.
  eexists. simpl. rewrite lookup_insert_eq. split; [done|]. simpl.
  assert (forall field old s,
             field = Some s -> s <> "" -> overwrite field old = Some (trim s))
    as Hset.
  { intros field old s -> Hs. simpl. apply String.eqb_neq in Hs.
    by rewrite Hs. }
  assert (forall field old,
             field = None \/ field = Some "" -> overwrite field old = old)
    as Hkeep.
  { by intros field old [-> | ->]. }
  repeat split; auto.
Qed.

(** X10. Cancellation happens once: after a status update to Cancelled
    has been answered 200, every further update of that order to any of
    the five statuses is answered 400 and changes nothing, so the stock
    is not restored a second time. *)
Theorem updateOrderStatus_cancels_once now id body db res db'
    now' body' target :
  updateOrderStatus now id body db = (res, db') ->
  code res = 200 ->
  StatusBody.status body = Some "Cancelled" ->
  StatusBody.status body' = Some target ->
  target ∈ ["Pending"; "Processing"; "Shipped"; "Delivered"; "Cancelled"] ->
  updateOrderStatus now' id body' db'
  = (mkResponse 400 (Message "Cannot update status of cancelled order"), db').
Proof.
  intros Hrun Hcode Hb Hb' Ht.
  destruct (updateOrderStatus_done _ _ _ _ _ _ Hrun Hcode)
    as (tgt & order & order' & Htgt & _ & _ & _ & Ho' & ->).
  rewrite Hb in Htgt. simpl in Htgt. injection Htgt as <-.
  unfold updateOrderStatus at 1. rewrite Hb'. simpl.
  rewrite lookup_insert_eq, Ho'. simpl.
  repeat (apply elem_of_cons in Ht as [->|Ht]; [done|]).
  by apply elem_of_nil in Ht.
Qed.

(** X11. However a status update ends, it adds and removes no order and
    no product, and it changes no product's name, price, image, category
    or offer. *)
Theorem updateOrderStatus_frame now id body db :
  let db' := snd (updateOrderStatus now id body db) in
  dom (orders db') = dom (orders db)
  /\ forall pid,
       match products db !! pid with
       | Some p =>
           exists p', products db' !! pid = Some p' /\ sameListing p p'
       | None => products db' !! pid = None
       end.
Proof.
  destruct (updateOrderStatus now id body db) as [res db'] eqn:Hrun. simpl.
  destruct (decide (code res = 200)) as [Hcode|Hcode].
  - destruct (updateOrderStatus_done _ _ _ _ _ _ Hrun Hcode)
      as (target & order & order' & _ & Ho & _ & _ & _ & ->). simpl. split.
    + rewrite dom_insert_L. apply elem_of_dom_2 in Ho.
      apply subseteq_union_1_L. by apply singleton_subseteq_l.
    + intros pid. case_bool_decide.
      * rewrite cancelAll_lookup.
        destruct (products db !! pid) as [p|]; simpl; [|done].
        eexists; split; [done|].
        case_decide; [apply sameListing_restock | apply sameListing_refl].
      * destruct (products db !! pid) as [p|]; [|done].
        eauto using sameListing_refl.
  - rewrite (updateOrderStatus_not_done _ _ _ _ _ _ Hrun Hcode).
    split; [done|]. intros pid. destruct (products db !! pid) as [p|]; [|done].
    eauto using sameListing_refl.
Qed.

End UpdateOutcomes.

(** ** Creating, cancelling and listing *)

Section Composition.
Context {num : Type} `{!JSNumber num}.
Implicit Types (db : Db num) (item : Item.t num) (items : list (Item.t num)).
Implicit Types (body : OrderBody.t num).

(** A creation whose answer carries an order id is a successful one. *)
Lemma createOrder_answered_with_id now body db res db' message id estimated :
  createOrder now body db = (res, db') ->
  json res = OrderCreated message id estimated ->
  exists items db1,
    OrderBody.items body = Some items
    /\ forEach reserve items db = (inr tt, db1)
    /\ id = fresh (dom (orders db1))
    /\ db' = mkDb (products db1)
               (<[id := orderOf now body items]> (orders db1)).
Proof.
  intros Hrun Hjson.
  destruct (createOrder_outcomes now body db)
    as [(res0 & Hv & _ & Heq)
       |(items & outcome & db1 & Hitems & Hr & [[Heq ->]|[error Heq]])];
    rewrite Heq in Hrun; injection Hrun as <- <-.
  - destruct (validateOrderInput_rejects _ _ Hv) as [m ->]. done.
  - simpl in Hjson. injection Hjson as _ <- _. eauto 10.
  - done.
Qed.

(** X12. Creating an order and then cancelling it, with no other call in
    between and with stock and cart quantities in the range where the
    program's arithmetic is exact, leaves the product collection exactly
    as it was before the creation; the cancellation is answered 200 and
    the order is stored as Cancelled. *)
Theorem create_then_cancel_restores_products
    now body db res db1 message id estimated now'
    (update : StatusBody.t) res' db2 :
  createOrder now body db = (res, db1) ->
  json res = OrderCreated message id estimated ->
  exactStock db (default [] (OrderBody.items body)) ->
  StatusBody.status update = Some "Cancelled" ->
  updateOrderStatus now' id update db1 = (res', db2) ->
  code res' = 200
  /\ products db2 = products db
  /\ exists order,
       orders db2 !! id = Some order /\ Order.status order = Cancelled.
Proof.
  intros Hrun Hjson _ Hb' Hrun'.
  destruct (createOrder_answered_with_id _ _ _ _ _ _ _ _ Hrun Hjson)
    as (items & dbr & Hitems & Hr & -> & ->).
  set (id := fresh (dom (orders dbr))) in *.
  destruct (updateOrderStatus_cancel now' id update
              (mkDb (products dbr)
                 (<[id := orderOf now body items]> (orders dbr)))
              (orderOf now body items))
    as (order' & Hs' & _ & Heq); [by simpl; rewrite lookup_insert_eq|done..|].
  rewrite Heq in Hrun'. injection Hrun' as <- <-. simpl.
  split; [done|]. split.
  2: { exists order'. by rewrite lookup_insert_eq. }
  apply map_eq. intros pid. rewrite cancelAll_lookup. simpl.
  destruct (products db !! pid) as [p|] eqn:Hp.
  - destruct (reserveAll_quantity _ _ _ _ _ Hr Hp) as (p1 & Hp1 & Hq1).
    destruct (reserveAll_listing _ _ _ _ _ _ Hr Hp) as (p1' & Hp1' & Hs1).
    assert (p1' = p1) as -> by congruence.
    rewrite Hp1. simpl. f_equal.
    destruct (decide (pid ∈ map Item._id items)) as [Hin|Hout].
    + apply sameListing_eq; simpl.
      * eapply sameListing_trans; [exact Hs1 | apply sameListing_restock].
      * lia.
      * apply list_elem_of_fmap in Hin as (item & -> & Hin).
        destruct (reserveAll_purchasable _ _ _ _ Hr Hin)
          as (p0 & Hp0 & Hs0 & _).
        congruence.
    + rewrite (reserveAll_untouched _ _ _ _ _ Hr Hout) in Hp1. congruence.
  - by rewrite (reserveAll_absent _ _ _ _ _ Hr Hp).
Qed.

#[local] Instance newerFirst_total : Total (newerFirst (num := num)).
Proof. intros a b. unfold newerFirst. lia. Qed.

#[local] Instance newerFirst_trans : Transitive (newerFirst (num := num)).
Proof. intros a b c. unfold newerFirst. lia. Qed.

Lemma getUserOrders_elem username db id (order : Order.t num) :
  (id, order) ∈ snd (getUserOrders username db)
  <-> orders db !! id = Some order /\ Order.username order = username.
Proof.
  unfold getUserOrders. simpl. rewrite merge_sort_Permutation.
  rewrite list_elem_of_filter, elem_of_map_to_list. simpl. tauto.
Qed.

(** X13. The listing of a user's orders is answered 200 with exactly the
    stored orders whose username is the requested one, character for
    character, each once, every order at least as recent as those after
    it. *)
Theorem getUserOrders_lists_the_users_orders username db :
  fst (getUserOrders username db) = 200
  /\ (forall id order,
        (id, order) ∈ snd (getUserOrders username db)
        <-> orders db !! id = Some order /\ Order.username order = username)
  /\ NoDup (snd (getUserOrders username db))
  /\ StronglySorted
       (fun a b => Order.orderDate (snd b) <= Order.orderDate (snd a))
       (snd (getUserOrders username db)).
Proof.
  split; [done|]. split; [apply getUserOrders_elem|]. split.
  - unfold getUserOrders. simpl. rewrite merge_sort_Permutation.
    apply NoDup_filter, NoDup_map_to_list.
  - apply (StronglySorted_merge_sort newerFirst).
Qed.

(** X14. A created order is listed under the trimmed username: after a
    creation answered with an order id, the listing for the submitted
    username with surrounding white space removed holds that order, every
    order listed before is still listed, and when trimming changes the
    submitted username the listing for the username as submitted does not
    hold the new order. *)
Theorem createOrder_then_listed
    now body db res db' message id estimated username :
  createOrder now body db = (res, db') ->
  json res = OrderCreated message id estimated ->
  OrderBody.username body = Some username ->
  (exists order, (id, order) ∈ snd (getUserOrders (trim username) db'))
  /\ (forall name doc,
        doc ∈ snd (getUserOrders name db) ->
        doc ∈ snd (getUserOrders name db'))
  /\ (trim username <> username ->
      forall order, (id, order) ∉ snd (getUserOrders username db')).
Proof.
  intros Hrun Hjson Hu.
  destruct (createOrder_answered_with_id _ _ _ _ _ _ _ _ Hrun Hjson)
    as (items & dbr & Hitems & Hr & -> & ->).
  pose proof (reserveAll_orders _ _ _ _ Hr) as Ho.
  set (id := fresh (dom (orders dbr))) in *.
  assert (orders dbr !! id = None) as Hfresh
    by (apply not_elem_of_dom, is_fresh).
  split; [|split].
  - exists (orderOf now body items). apply getUserOrders_elem. simpl.
    rewrite lookup_insert_eq, Hu. done.
  - intros name [id' order']. rewrite !getUserOrders_elem. simpl.
    intros [Hl Hn]. split; [|done]. rewrite <- Ho in Hl.
    rewrite lookup_insert_ne; [done|]. congruence.
  - intros Hne order. rewrite getUserOrders_elem. simpl.
    rewrite lookup_insert_eq. intros [[= <-] Hn]. simpl in Hn.
    rewrite Hu in Hn. done.
Qed.

End Composition.

(** ** What the two patterns accept *)

Lemma append_nil_l s : "" +:+ s = s.
Proof. done. Qed.

Lemma append_cons a s1 s2 : String a s1 +:+ s2 = String a (s1 +:+ s2).
Proof. done. Qed.

Lemma append_eq_nil s1 s2 : s1 +:+ s2 = "" -> s1 = "" /\ s2 = "".
Proof. destruct s1; [done|]. rewrite append_cons. done. Qed.

Lemma append_eq_cons s1 s2 c s :
  s1 +:+ s2 = String c s ->
  (s1 = "" /\ s2 = String c s)
  \/ exists s1', s1 = String c s1' /\ s = s1' +:+ s2.
Proof.
  destruct s1 as [|a s1]; [by left|]. rewrite append_cons.
  intros [= -> <-]. right. eauto.
Qed.

Lemma nullable_lang r : nullable r = true <-> lang r "".
Proof.
  split.
  - induction r; simpl; intros Hn; try done.
    + constructor.
    + apply andb_true_iff in Hn as [H1 H2].
      apply (lang_seq r1 r2 "" ""); auto.
    + apply orb_true_iff in Hn as [H1|H2];
        [apply lang_alt_l | apply lang_alt_r]; auto.
    + constructor.
  - intros Hl. remember "" as s eqn:Hs.
    induction Hl; simpl; try done.
    + apply append_eq_nil in Hs as [-> ->].
      by rewrite IHHl1, IHHl2.
    + by rewrite IHHl.
    + rewrite IHHl by done. apply orb_true_r.
Qed.

Lemma deriv_lang c r s : lang (deriv c r) s <-> lang r (String c s).
Proof.
  split.
  - revert s. induction r; simpl; intros s Hl.
    + inversion Hl.
    + inversion Hl.
    + destruct (b c) eqn:Hb; inversion Hl; subst. by constructor.
    + assert (lang (Seq (deriv c r1) r2) s -> lang (Seq r1 r2) (String c s))
        as Hfirst.
      { intros Hs. inversion Hs; subst.
        rewrite <- append_cons. constructor; auto. }
      destruct (nullable r1) eqn:Hn; [|auto].
      inversion Hl; subst; [auto|].
      rewrite <- (append_nil_l (String c s)). constructor; [|auto].
      by apply nullable_lang.
    + inversion Hl; subst; [apply lang_alt_l | apply lang_alt_r]; auto.
    + inversion Hl; subst. rewrite <- append_cons. constructor; auto.
  - intros Hl. remember (String c s) as s0 eqn:Hs. revert s Hs.
    induction Hl; intros t Ht; simpl; try done.
    + injection Ht as ? ?; subst. rewrite H. constructor.
    + apply append_eq_cons in Ht as [[-> ->]|(s1' & -> & ->)].
      * apply nullable_lang in Hl1. rewrite Hl1. apply lang_alt_r. auto.
      * assert (lang (Seq (deriv c r1) r2) (s1' +:+ s2))
          by (constructor; auto).
        destruct (nullable r1); [by apply lang_alt_l | done].
    + apply lang_alt_l. auto.
    + apply lang_alt_r. auto.
    + apply append_eq_cons in Ht as [[-> ->]|(s1' & -> & ->)].
      * by apply IHHl2.
      * constructor; auto.
Qed.

(** The matcher decides the language of the pattern. *)
Lemma test_lang r s : test r s = true <-> lang r s.
Proof.
  revert r. induction s as [|c s IH]; intros r; simpl.
  - apply nullable_lang.
  - rewrite IH. apply deriv_lang.
Qed.

Lemma lang_Seq r1 r2 s :
  lang (Seq r1 r2) s <->
  exists s1 s2, s = s1 +:+ s2 /\ lang r1 s1 /\ lang r2 s2.
Proof.
  split.
  - intros Hl. inversion Hl; subst. eauto.
  - intros (s1 & s2 & -> & H1 & H2). by constructor.
Qed.

Lemma lang_Class f s :
  lang (Class f) s <-> exists c, s = String c "" /\ f c = true.
Proof.
  split.
  - intros Hl. inversion Hl; subst. eauto.
  - intros (c & -> & Hc). by constructor.
Qed.

Lemma lang_Chr a s : lang (Chr a) s <-> s = String a "".
Proof.
  unfold Chr. rewrite lang_Class. split.
  - intros (c & -> & Hc). apply Ascii.eqb_eq in Hc. by subst.
  - intros ->. exists a. split; [done|]. apply Ascii.eqb_refl.
Qed.

Lemma lang_Star_Class f s : lang (Star (Class f)) s <-> allIn f s.
Proof.
  split.
  - intros Hl. remember (Star (Class f)) as r eqn:Hr.
    induction Hl; try done. injection Hr as ->.
    apply lang_Class in Hl1 as (c & -> & Hc).
    rewrite append_cons, append_nil_l. simpl. auto.
  - induction s as [|c s IH]; simpl.
    + intros _. constructor.
    + intros [Hc Hs]. apply (lang_star_cons _ (String c "") s); auto.
      by constructor.
Qed.

Lemma lang_Plus_Class f s :
  lang (Plus (Class f)) s <-> s <> "" /\ allIn f s.
Proof.
  unfold Plus. rewrite lang_Seq. split.
  - intros (s1 & s2 & -> & H1 & H2).
    apply lang_Class in H1 as (c & -> & Hc). apply lang_Star_Class in H2.
    rewrite append_cons, append_nil_l. simpl. auto.
  - destruct s as [|c s]; [by intros [? _]|]. simpl. intros [_ [Hc Hs]].
    exists (String c ""), s. split; [done|]. split.
    + by constructor.
    + by apply lang_Star_Class.
Qed.

Lemma lang_AtLeast_Class n f s :
  lang (AtLeast n (Class f)) s <-> (n <= String.length s)%nat /\ allIn f s.
Proof.
  revert s. induction n as [|n IH]; intros s; simpl.
  - rewrite lang_Star_Class. split; [|tauto]. intros Hs. split; [lia | done].
  - rewrite lang_Seq. split.
    + intros (s1 & s2 & -> & H1 & H2).
      apply lang_Class in H1 as (c & -> & Hc). apply IH in H2 as [Hn Hs].
      rewrite append_cons, append_nil_l. simpl. split; [lia | auto].
    + destruct s as [|c s]; simpl; [lia|]. intros [Hn [Hc Hs]].
      exists (String c ""), s. split; [done|]. split.
      * by constructor.
      * apply IH. split; [lia | done].
Qed.

(** X15. The phone pattern accepts exactly the strings made of an
    optional leading [+] followed by eight or more code units, each a
    digit, white space, [-], [(] or [)]. *)
Theorem phoneRegex_accepts s :
  test phoneRegex s = true <->
  exists digits,
    (s = digits \/ s = String "+" digits)
    /\ (8 <= String.length digits)%nat
    /\ allIn phoneChar digits.
Proof.
  rewrite test_lang. unfold phoneRegex, Opt. rewrite lang_Seq. split.
  - intros (s1 & s2 & -> & H1 & H2). apply lang_AtLeast_Class in H2.
    exists s2. split; [|done].
    inversion H1 as [| | |r1 r2 s0 He|r1 r2 s0 Hp| |]; subst.
    + inversion He. by left.
    + apply lang_Chr in Hp as ->. by right.
  - intros (digits & Hs & Hd). apply lang_AtLeast_Class in Hd.
    destruct Hs as [-> | ->].
    + exists "", digits. split; [done|]. split; [|done].
      apply lang_alt_l. constructor.
    + exists "+", digits. split; [done|]. split; [|done].
      apply lang_alt_r. by apply lang_Chr.
Qed.

(** X16. The email pattern accepts exactly the strings of the form
    local [@] domain [.] rest in which the three parts are not empty and
    hold neither white space nor [@]. *)
Theorem emailRegex_accepts s :
  test emailRegex s = true <->
  exists name domain rest,
    s = name +:+ "@" +:+ domain +:+ "." +:+ rest
    /\ name <> "" /\ domain <> "" /\ rest <> ""
    /\ allIn notSpaceAt name /\ allIn notSpaceAt domain
    /\ allIn notSpaceAt rest.
Proof.
  rewrite test_lang. unfold emailRegex.
  rewrite lang_Seq. split.
  - intros (name & s1 & -> & Hn & H1).
    apply lang_Seq in H1 as (at_ & s2 & -> & Hat & H2).
    apply lang_Seq in H2 as (domain & s3 & -> & Hd & H3).
    apply lang_Seq in H3 as (dot & rest & -> & Hdot & Hr).
    apply lang_Chr in Hat as ->. apply lang_Chr in Hdot as ->.
    apply lang_Plus_Class in Hn as [? ?], Hd as [? ?], Hr as [? ?].
    exists name, domain, rest. done.
  - intros (name & domain & rest & -> & ? & ? & ? & ? & ? & ?).
    exists name, ("@" +:+ domain +:+ "." +:+ rest). split; [done|].
    split; [by apply lang_Plus_Class|].
    apply lang_Seq. exists "@", (domain +:+ "." +:+ rest). split; [done|].
    split; [by apply lang_Chr|].
    apply lang_Seq. exists domain, ("." +:+ rest). split; [done|].
    split; [by apply lang_Plus_Class|].
    apply lang_Seq. exists ".", rest. split; [done|].
    split; [by apply lang_Chr | by apply lang_Plus_Class].
Qed.

(** ** The further properties at the small catalogue *)

(** Two frames claimed at a total of 1: refused, no order saved. *)
Lemma createOrder_refusal_saves_no_order_witness :
  code (fst (createOrder 1000 (Shop.request [Shop.frames 2] 1%Q)
               Shop.catalogue)) = 400
  /\ orders (snd (createOrder 1000 (Shop.request [Shop.frames 2] 1%Q)
                    Shop.catalogue)) = orders (Shop.catalogue (num := Q)).
Proof.
  apply (createOrder_refusal_saves_no_order 1000
           (Shop.request [Shop.frames 2] 1%Q) Shop.catalogue).
  - apply surjective_pairing.
  - vm_compute. discriminate.
Defined.

(** Two frames at the right total: the order is saved as Pending. *)
Lemma createOrder_saves_one_order_witness :
  exists id (order : Order.t Q),
    orders (snd (createOrder 1000 (Shop.request [Shop.frames 2] 180%Q)
                   Shop.catalogue)) !! id = Some order
    /\ Order.status order = Pending.
Proof.
  destruct (createOrder_saves_one_order 1000
              (Shop.request [Shop.frames 2] 180%Q) Shop.catalogue
              (fst (createOrder 1000 (Shop.request [Shop.frames 2] 180%Q)
                      Shop.catalogue))
              (snd (createOrder 1000 (Shop.request [Shop.frames 2] 180%Q)
                      Shop.catalogue)))
    as (id & estimated & order & _ & Hsaved & _ & Hstatus & _).
  - apply surjective_pairing.
  - vm_compute. reflexivity.
  - exists id, order. auto.
Defined.

(** The accepted cart of two frames could be bought. *)
Lemma createOrder_accepts_purchasable_carts_witness :
  exists p : Product.t Q,
    products Shop.catalogue !! 1%N = Some p
    /\ Product.status p = Available
    /\ 2 <= Product.quantity p.
Proof.
  destruct (createOrder_accepts_purchasable_carts 1000
              (Shop.request [Shop.frames 2] 180%Q) Shop.catalogue
              (fst (createOrder 1000 (Shop.request [Shop.frames 2] 180%Q)
                      Shop.catalogue))
              (snd (createOrder 1000 (Shop.request [Shop.frames 2] 180%Q)
                      Shop.catalogue))
              [Shop.frames 2] (Shop.frames 2))
    as (_ & p & Hp & Hs & _ & _ & Hq).
  - apply surjective_pairing.
  - vm_compute. reflexivity.
  - reflexivity.
  - apply exactStock_check. vm_compute. reflexivity.
  - apply list_elem_of_here.
  - exists p. auto.
Defined.

(** All five frames at a wrong total: the shelf is as before. *)
Lemma createOrder_total_mismatch_restores_witness :
  fst (createOrder 1000 (Shop.request [Shop.frames 5] 1%Q) Shop.catalogue)
  = refused TotalMismatch
  /\ products (snd (createOrder 1000 (Shop.request [Shop.frames 5] 1%Q)
                      Shop.catalogue)) !! 1%N
     = Some (Shop.frame 5 Available).
Proof.
  destruct (createOrder_total_mismatch_restores 1000
              (Shop.request [Shop.frames 5] 1%Q) Shop.catalogue
              [Shop.frames 5]
              (snd (forEach reserve [Shop.frames 5] Shop.catalogue)))
    as (Hres & _ & Hproducts).
  - vm_compute. reflexivity.
  - reflexivity.
  - apply exactStock_check. vm_compute. reflexivity.
  - vm_compute. reflexivity.
  - vm_compute. reflexivity.
  - split; [exact Hres|].
    destruct (Hproducts 1%N (Shop.frame 5 Available)) as (p' & Hp' & _ & _ & Heq).
    + reflexivity.
    + rewrite Hp'. f_equal. apply Heq. simpl. lia.
Defined.

(** Two frames and three diyas with one diya on the shelf. *)
Lemma createOrder_compensates_whole_cart_witness :
  fst (createOrder 1000 (Shop.request [Shop.frames 2; Shop.diyas 3] 300%Q)
         Shop.catalogue)
  = refused (InsufficientStock "Diya" 1)
  /\ exists p' : Product.t Q,
       products (snd (createOrder 1000
                        (Shop.request [Shop.frames 2; Shop.diyas 3] 300%Q)
                        Shop.catalogue)) !! 2%N = Some p'
       /\ Product.quantity p' = 1 + 3.
Proof.
  destruct (createOrder_compensates_whole_cart 1000
              (Shop.request [Shop.frames 2; Shop.diyas 3] 300%Q)
              Shop.catalogue [Shop.frames 2] (Shop.diyas 3) []
              (snd (forEach reserve [Shop.frames 2] Shop.catalogue))
              (InsufficientStock "Diya" 1))
    as (Hres & Hproducts).
  - vm_compute. reflexivity.
  - reflexivity.
  - apply exactStock_check. vm_compute. reflexivity.
  - vm_compute. reflexivity.
  - vm_compute. reflexivity.
  - split; [exact Hres|].
    apply (Hproducts 2%N (Shop.diya 1 Available)). reflexivity.
Defined.

(** A status that is not one of the five names. *)
Lemma updateOrderStatus_failure_changes_nothing_witness :
  snd (updateOrderStatus 2000 0%N (StatusBody.mk (Some "Lost") None None)
         Shop.catalogue) = Shop.catalogue (num := Q).
Proof.
  apply (updateOrderStatus_failure_changes_nothing 2000 0%N
           (StatusBody.mk (Some "Lost") None None) Shop.catalogue
           (fst (updateOrderStatus 2000 0%N
                   (StatusBody.mk (Some "Lost") None None) Shop.catalogue))).
  - apply surjective_pairing.
  - vm_compute. discriminate.
Defined.

(** The order of two frames, shipped with a tracking number. *)
Lemma updateOrderStatus_rewrites_one_order_witness :
  let db : Db Q :=
    snd (createOrder 1000 (Shop.request [Shop.frames 2] 180%Q)
           Shop.catalogue) in
  let out :=
    updateOrderStatus 2000 0%N (StatusBody.mk (Some "Shipped") None None) db in
  exists order',
    orders (snd out) = <[0%N := order']> (orders db)
    /\ Order.status order' = Shipped.
Proof.
  intros db out.
  destruct (updateOrderStatus_rewrites_one_order 2000 0%N
              (StatusBody.mk (Some "Shipped") None None) db
              (fst out) (snd out))
    as (target & order & order' & Ht & _ & _ & Hsaved & _ & Hstatus & _).
  - apply surjective_pairing.
  - vm_compute. reflexivity.
  - exists order'. split; [exact Hsaved|]. rewrite Hstatus.
    simpl in Ht. by injection Ht as <-.
Defined.

Lemma updateOrderStatus_tracking_and_notes_witness :
  let db : Db Q :=
    snd (createOrder 1000 (Shop.request [Shop.frames 2] 180%Q)
           Shop.catalogue) in
  let out :=
    updateOrderStatus 2000 0%N
      (StatusBody.mk (Some "Shipped") (Some " TRK1 ") None) db in
  exists order',
    orders (snd out) !! 0%N = Some order'
    /\ Order.trackingNumber order' = Some "TRK1"
    /\ Order.notes order' = None.
Proof.
  intros db out.
  destruct (updateOrderStatus_tracking_and_notes 2000 0%N
              (StatusBody.mk (Some "Shipped") (Some " TRK1 ") None) db
              (fst out) (snd out)
              (orderOf 1000 (Shop.request [Shop.frames 2] 180%Q)
                 [Shop.frames 2]))
    as (order' & Ho & Hset & _ & _ & Hkeep).
  - apply surjective_pairing.
  - vm_compute. reflexivity.
  - vm_compute. reflexivity.
  - exists order'. split; [exact Ho|]. split.
    + apply (Hset " TRK1 "); [reflexivity | discriminate].
    + rewrite Hkeep by (by left). reflexivity.
Defined.

(** The order of two frames, cancelled, asked to become Shipped. *)
Lemma updateOrderStatus_cancels_once_witness :
  let db : Db Q :=
    snd (createOrder 1000 (Shop.request [Shop.frames 2] 180%Q)
           Shop.catalogue) in
  let db' := snd (updateOrderStatus 2000 0%N Shop.cancel db) in
  updateOrderStatus 3000 0%N (StatusBody.mk (Some "Shipped") None None) db'
  = (mkResponse 400 (Message "Cannot update status of cancelled order"), db').
Proof.
  intros db db'.
  apply (updateOrderStatus_cancels_once 2000 0%N Shop.cancel db
           (fst (updateOrderStatus 2000 0%N Shop.cancel db)) db'
           3000 (StatusBody.mk (Some "Shipped") None None) "Shipped").
  - apply surjective_pairing.
  - vm_compute. reflexivity.
  - reflexivity.
  - reflexivity.
  - apply list_elem_of_further, list_elem_of_further, list_elem_of_here.
Defined.

(** Two frames ordered, then the order cancelled. *)
Lemma create_then_cancel_restores_products_witness :
  let out :=
    createOrder 1000 (Shop.request [Shop.frames 2] 180%Q) Shop.catalogue in
  let out' := updateOrderStatus 2000 0%N Shop.cancel (snd out) in
  code (fst out') = 200
  /\ products (snd out') = products (Shop.catalogue (num := Q)).
Proof.
  intros out out'.
  destruct (create_then_cancel_restores_products 1000
              (Shop.request [Shop.frames 2] 180%Q) Shop.catalogue
              (fst out) (snd out) "Order created successfully" 0%N 432001000
              2000 Shop.cancel (fst out') (snd out'))
    as (Hcode & Hproducts & _).
  - apply surjective_pairing.
  - vm_compute. reflexivity.
  - apply exactStock_check. vm_compute. reflexivity.
  - reflexivity.
  - apply surjective_pairing.
  - split; [exact Hcode | exact Hproducts].
Defined.

(** The order " bob " placed is listed under "bob". *)
Lemma createOrder_then_listed_witness :
  let out :=
    createOrder 1000 (Shop.request [Shop.frames 2] 180%Q) Shop.catalogue in
  exists order : Order.t Q,
    (0%N, order) ∈ snd (getUserOrders "bob" (snd out)).
Proof.
  intros out.
  destruct (createOrder_then_listed 1000
              (Shop.request [Shop.frames 2] 180%Q) Shop.catalogue
              (fst out) (snd out) "Order created successfully" 0%N 432001000
              " bob ")
    as (Hlisted & _ & _).
  - apply surjective_pairing.
  - vm_compute. reflexivity.
  - reflexivity.
  - exact Hlisted.
Defined.

(** Three sold-out diyas asked for: refused, and three diyas appear. *)
Lemma createOrder_refusal_restocks_unavailable_witness :
  let db : Db Q := mkDb {[ 2%N := Shop.diya 0 NotAvailable ]} ∅ in
  let out := createOrder 1000 (Shop.request [Shop.diyas 3] 120%Q) db in
  fst out = refused (ProductUnavailable "Diya")
  /\ exists p',
       products (snd out) !! 2%N = Some p'
       /\ Product.status p' = Available
       /\ Product.quantity p' = 0 + (3 + 0).
Proof.
  intros db out.
  apply (createOrder_refusal_restocks_unavailable 1000
           (Shop.request [Shop.diyas 3] 120%Q) db (Shop.diyas 3) []
           (Shop.diya 0 NotAvailable)).
  - vm_compute. reflexivity.
  - reflexivity.
  - apply exactStock_check. vm_compute. reflexivity.
  - reflexivity.
  - reflexivity.
  - simpl. lia.
Defined.
